(** * AI resume builder: the request service and the interactive form

    A shallow embedding of [services.py], [app.py] and [Ai_resume.py].
    External capabilities (the hosted inference endpoint, TextBlob, FPDF)
    are oracles collected in a [world]; every call to one of them, and every
    message shown to the user, is recorded in an event log, so that
    statements such as "no upstream call was made" are statements about
    that log. *)

From Stdlib Require Import ZArith List String Ascii Bool Lia.
From Stdlib Require Import Floats DecimalString DecimalPos.
From stdpp Require Import gmap strings list.

Set Warnings "-register-all".
Open Scope string_scope.
Open Scope list_scope.
Open Scope Z_scope.

(** ** Python builtins used by the sources

    Strings are sequences of ASCII characters. *)
Module Py.

(** [c.isspace()] on the ASCII range: tab, line feed, vertical tab, form
    feed, carriage return, the four separators 28..31 and the blank. *)
Definition is_space (c : ascii) : bool :=
  let n := N_of_ascii c in
  ((9 <=? n) && (n <=? 13) || (28 <=? n) && (n <=? 32))%N.

Fixpoint lstrip (s : string) : string :=
  match s with
  | String c s' => if is_space c then lstrip s' else s
  | EmptyString => EmptyString
  end.

Fixpoint rstrip (s : string) : string :=
  match s with
  | String c s' =>
      match rstrip s' with
      | EmptyString => if is_space c then EmptyString else String c EmptyString
      | r => String c r
      end
  | EmptyString => EmptyString
  end.

(** [s.strip()] *)
Definition strip (s : string) : string := rstrip (lstrip s).

(** Truth value of a string: [bool(s)]. *)
Definition truthy (s : string) : bool :=
  match s with EmptyString => false | _ => true end.

(** Truth value of an optional string ([None] is false). *)
Definition truthy_opt (o : option string) : bool :=
  match o with Some s => truthy s | None => false end.

Definition upper_char (c : ascii) : ascii :=
  let n := N_of_ascii c in
  if ((97 <=? n) && (n <=? 122))%N then ascii_of_N (n - 32) else c.

Definition lower_char (c : ascii) : ascii :=
  let n := N_of_ascii c in
  if ((65 <=? n) && (n <=? 90))%N then ascii_of_N (n + 32) else c.

Fixpoint map_chars (f : ascii -> ascii) (s : string) : string :=
  match s with
  | String c s' => String (f c) (map_chars f s')
  | EmptyString => EmptyString
  end.

Definition lower (s : string) : string := map_chars lower_char s.

(** [s.capitalize()]: first character upper-cased, the rest lower-cased. *)
Definition capitalize (s : string) : string :=
  match s with
  | String c s' => String (upper_char c) (lower s')
  | EmptyString => EmptyString
  end.

(** [s.replace(a, b)] for one-character [a] and [b]. *)
Definition replace (a b : ascii) (s : string) : string :=
  map_chars (fun c => if Ascii.eqb c a then b else c) s.

(** [s.startswith(p)] *)
Definition startswith (s p : string) : bool := String.prefix p s.

(** [s.split(sep)] for a one-character separator; never the empty list. *)
Fixpoint split (sep : ascii) (s : string) : list string :=
  match s with
  | String c s' =>
      if Ascii.eqb c sep then EmptyString :: split sep s'
      else match split sep s' with
           | h :: t => String c h :: t
           | [] => [String c EmptyString]
           end
  | EmptyString => [EmptyString]
  end.

(** [xs[-1]] on the result of a split. *)
Definition last_piece (xs : list string) : string := List.last xs EmptyString.

Definition digit_of (c : ascii) : option Z :=
  let n := Z.of_N (N_of_ascii c) in
  if (48 <=? n) && (n <=? 57) then Some (n - 48) else None.

(** Decimal digits, single underscores allowed between two digits. *)
Fixpoint digits_value (acc : Z) (after_digit : bool) (s : string) : option Z :=
  match s with
  | String c s' =>
      if Ascii.eqb c "_"%char
      then (if after_digit then digits_value acc false s' else None)
      else match digit_of c with
           | Some d => digits_value (10 * acc + d) true s'
           | None => None
           end
  | EmptyString => if after_digit then Some acc else None
  end.

(** [int(s)] for a string: surrounding whitespace, an optional sign,
    decimal digits. [None] stands for [ValueError]. *)
Definition int (s : string) : option Z :=
  match strip s with
  | String "+" r => digits_value 0 false r
  | String "-" r => Z.opp <$> digits_value 0 false r
  | t => digits_value 0 false t
  end.

(** [str(n)] and [f"{n}"] for an integer. *)
Definition str_of_int (n : Z) : string := NilZero.string_of_int (Z.to_int n).

(** [a or b] where [a] is an optional integer: [None] and [0] are false. *)
Definition int_or (a : option Z) (b : Z) : Z :=
  match a with
  | Some n => if n =? 0 then b else n
  | None => b
  end.

(** Truth value of a float: every value except the two zeros. *)
Definition float_truthy (x : float) : bool := negb (PrimFloat.eqb x 0%float).

(** Index of a list of length [len] addressed by a Python integer:
    negative indices count from the end; [None] stands for [IndexError]. *)
Definition index (len : nat) (i : Z) : option nat :=
  if (0 <=? i) && (i <? Z.of_nat len) then Some (Z.to_nat i)
  else if (i <? 0) && (- Z.of_nat len <=? i) then Some (Z.to_nat (Z.of_nat len + i))
  else None.

End Py.

(** ** Exceptions, outcomes and the event log *)

(** The exception classes the handlers tell apart: everything under
    [requests.exceptions.RequestException], FastAPI's [HTTPException], and
    any other [Exception] (its class name and message). *)
Inductive exn :=
| RequestException (msg : string)
| HTTPException (status_code : Z) (detail : string)
| PyError (cls : string) (msg : string).

(** [str(e)]. For [HTTPException] this is Starlette's ["<status>: <detail>"]. *)
Definition exn_str (e : exn) : string :=
  match e with
  | RequestException msg => msg
  | HTTPException st d => Py.str_of_int st +:+ ": " +:+ d
  | PyError _ msg => msg
  end.

Inductive outcome (A : Type) :=
| Ok (a : A)
| Raise (e : exn).
Arguments Ok {A} a.
Arguments Raise {A} e.

(** JSON values as [response.json()] yields them. *)
Inductive json :=
| JNull
| JBool (b : bool)
| JInt (n : Z)
| JFloat (x : float)
| JStr (s : string)
| JArr (xs : list json)
| JObj (kvs : list (string * json)).

(** The body of the POST sent to the inference endpoint. *)
Record request := {
  url : string;
  authorization : string;
  inputs : string;
  max_new_tokens : Z;
  temperature : float;
  do_sample : bool;
  top_p : float;
  return_full_text : bool;
  wait_for_model : bool;
  timeout : Z
}.

Record response := {
  status_code : Z;
  reason : string;
  headers : list (string * string);
  body : outcome json          (* what [response.json()] returns or raises *)
}.

(** The calls recorded on an FPDF object. An argument left out in the call
    is [None]. *)
Inductive pdf_op :=
| AddPage
| SetFont (family : option string) (style : option string) (size : option Z)
| Cell (w h : Z) (txt : string) (ln : Z) (align : option string)
| MultiCell (w h : Z) (txt : string)
| Ln (h : Z).

(** What the Streamlit script shows. *)
Inductive ui :=
| StError (msg : string)
| StWarning (msg : string)
| StSuccess (msg : string)
| StDownloadButton (label : string) (data : list Byte.byte) (file_name mime : string).

Inductive event :=
| EvPost (r : request)              (* requests.post *)
| EvCorrect (text : string)         (* TextBlob(text).correct() *)
| EvWords (text : string)           (* TextBlob(text).words *)
| EvRender (ops : list pdf_op)      (* FPDF page built and output *)
| EvPdf (op : pdf_op)               (* one call on an FPDF object *)
| EvUI (m : ui)
| EvRerun.                          (* st.rerun() *)

(** The external capabilities. *)
Record world := {
  post : request -> outcome response;
  correct : string -> outcome string;
  words : string -> outcome (list string);
  fpdf_output : list pdf_op -> outcome (list Byte.byte);
  parse_float : string -> option float      (* float(s); None is ValueError *)
}.

(** A computation emits events in order and ends in a value or an exception. *)
Definition M (A : Type) : Type := list event * outcome A.

Definition ret {A} (a : A) : M A := ([], Ok a).
Definition raise {A} (e : exn) : M A := ([], Raise e).
Definition emit (ev : event) : M unit := ([ev], Ok tt).

Definition bind {A B} (m : M A) (f : A -> M B) : M B :=
  match m with
  | (l, Ok a) => let (l', r) := f a in (l ++ l', r)
  | (l, Raise e) => (l, Raise e)
  end.

(** [try: m except ... as e: h e] *)
Definition try_except {A} (m : M A) (h : exn -> M A) : M A :=
  match m with
  | (l, Raise e) => let (l', r) := h e in (l ++ l', r)
  | ok => ok
  end.

(** A call to an oracle, recorded. *)
Definition call {A} (ev : event) (r : outcome A) : M A := ([ev], r).

Definition lift_opt {A} (o : option A) (e : exn) : M A :=
  match o with Some a => ret a | None => raise e end.

Definition events {A} (m : M A) : list event := fst m.
Definition result {A} (m : M A) : outcome A := snd m.

#[export] Instance M_ret : MRet M := @ret.
#[export] Instance M_bind : MBind M := fun A B f m => bind m f.

Definition lift {A} (r : outcome A) : M A := ([], r).

(** ** The list comprehension shared by both [check_spelling] functions

    [[str(word) for i, word in enumerate(blob.words)
      if i < len(TextBlob(corrected).words)
         and word != TextBlob(corrected).words[i]]]

    [TextBlob(corrected).words] is evaluated anew for the length test and,
    when that test passes, once more for the indexing. *)
Fixpoint misspelled (w : world) (corrected : string) (i : nat)
    (ws : list string) : M (list string) :=
  match ws with
  | [] => ret []
  | word :: rest =>
      cs ← call (EvWords corrected) (words w corrected);
      keep ← (if (i <? length cs)%nat
              then cs' ← call (EvWords corrected) (words w corrected);
                   c ← lift_opt (cs' !! i) (PyError "IndexError" "list index out of range");
                   ret (negb (String.eqb word c))
              else ret false);
      tail ← misspelled w corrected (S i) rest;
      ret (if (keep : bool) then word :: tail else tail)
  end.

(** ** JSON access as Python performs it on the decoded value *)

(** [d.get(key)] on a decoded object: a later pair for the same key wins. *)
Fixpoint obj_get (kvs : list (string * json)) (key : string) : option json :=
  match kvs with
  | [] => None
  | (k, v) :: rest =>
      match obj_get rest key with
      | Some v' => Some v'
      | None => if String.eqb k key then Some v else None
      end
  end.

(** [j[0]] *)
Definition json_first (j : json) : outcome json :=
  match j with
  | JArr (x :: _) => Ok x
  | JArr [] => Raise (PyError "IndexError" "list index out of range")
  | JObj _ => Raise (PyError "KeyError" "0")
  | JStr (String c _) => Ok (JStr (String c EmptyString))
  | JStr EmptyString => Raise (PyError "IndexError" "string index out of range")
  | _ => Raise (PyError "TypeError" "object is not subscriptable")
  end.

(** [j.get(key, default)] *)
Definition json_get (j : json) (key : string) (default : json) : outcome json :=
  match j with
  | JObj kvs => Ok (match obj_get kvs key with Some v => v | None => default end)
  | _ => Raise (PyError "AttributeError" "object has no attribute 'get'")
  end.

(** [response.headers.get(key)]: header names compare without case. *)
Fixpoint header_get (hs : list (string * string)) (key : string) : option string :=
  match hs with
  | [] => None
  | (k, v) :: rest =>
      if String.eqb (Py.lower k) (Py.lower key) then Some v else header_get rest key
  end.

(** [response.raise_for_status()] *)
Definition raise_for_status (u : string) (r : response) : M unit :=
  let st := status_code r in
  if (400 <=? st) && (st <? 500)
  then raise (RequestException
                (Py.str_of_int st +:+ " Client Error: " +:+ reason r +:+ " for url: " +:+ u))
  else if (500 <=? st) && (st <? 600)
  then raise (RequestException
                (Py.str_of_int st +:+ " Server Error: " +:+ reason r +:+ " for url: " +:+ u))
  else ret tt.

(** [int(os.getenv(key, default))] with an integer default. *)
Definition getenv_int (env : gmap string string) (key : string) (default : Z) : outcome Z :=
  match env !! key with
  | Some s =>
      match Py.int s with
      | Some n => Ok n
      | None => Raise (PyError "ValueError"
                         ("invalid literal for int() with base 10: '" +:+ s +:+ "'"))
      end
  | None => Ok default
  end.

(** [f"{x}"] for an optional string. *)
Definition format_opt (o : option string) : string :=
  match o with Some s => s | None => "None" end.

Definition endpoint : string := "https://api-inference.huggingface.co/models/".

(** ** services.py and app.py *)
Module Services.

(** The module-level configuration, read once at import. *)
Record config := {
  HF_API_KEY : option string;
  MODEL_NAME : option string;
  API_TIMEOUT : Z;
  MAX_TEXT_LENGTH : Z
}.

Definition load_config (env : gmap string string) : outcome config :=
  match getenv_int env "API_TIMEOUT" 30 with
  | Raise e => Raise e
  | Ok t =>
      match getenv_int env "MAX_TEXT_LENGTH" 500 with
      | Raise e => Raise e
      | Ok m => Ok {| HF_API_KEY := env !! "HF_API_KEY";
                      MODEL_NAME := env !! "MODEL_NAME";
                      API_TIMEOUT := t;
                      MAX_TEXT_LENGTH := m |}
      end
  end.

Definition check_spelling (w : world) (text : string) : M (string * list string) :=
  try_except
    (if negb (Py.truthy (Py.strip text)) then ret (text, [])
     else
       corrected ← call (EvCorrect text) (correct w text);
       ws ← call (EvWords text) (words w text);
       ms ← misspelled w corrected 0 ws;
       ret (corrected, ms))
    (fun e => raise (HTTPException 500 ("Spell check error: " +:+ exn_str e))).

(** [float(os.getenv('DEFAULT_TEMPERATURE'))], read at call time. *)
Definition default_temperature (w : world) (env : gmap string string) : M float :=
  match env !! "DEFAULT_TEMPERATURE" with
  | None => raise (PyError "TypeError"
              "float() argument must be a string or a real number, not 'NoneType'")
  | Some s => lift_opt (parse_float w s)
                (PyError "ValueError" ("could not convert string to float: '" +:+ s +:+ "'"))
  end.

(** [temperature or float(os.getenv('DEFAULT_TEMPERATURE'))] *)
Definition temperature_or_default (w : world) (env : gmap string string)
    (temperature : option float) : M float :=
  match temperature with
  | Some t => if Py.float_truthy t then ret t else default_temperature w env
  | None => default_temperature w env
  end.

Definition generate_text (w : world) (cfg : config) (env : gmap string string)
    (prompt : string) (max_length : option Z) (temperature : option float) : M json :=
  try_except
    (if negb (Py.truthy_opt (HF_API_KEY cfg))
     then raise (PyError "ValueError" "Hugging Face API key not configured")
     else
       let u := endpoint +:+ format_opt (MODEL_NAME cfg) in
       let n := Z.min (Py.int_or max_length (MAX_TEXT_LENGTH cfg)) (MAX_TEXT_LENGTH cfg) in
       t ← temperature_or_default w env temperature;
       let req := {| url := u;
                     authorization := "Bearer " +:+ format_opt (HF_API_KEY cfg);
                     inputs := prompt;
                     max_new_tokens := n;
                     temperature := t;
                     do_sample := true;
                     top_p := 0x1.ccccccccccccdp-1%float;
                     return_full_text := false;
                     wait_for_model := true;
                     timeout := API_TIMEOUT cfg |} in
       response ← call (EvPost req) (post w req);
       if status_code response =? 503
       then
         wait_time ← match header_get (headers response) "estimated_time" with
                     | Some s => lift_opt (Py.int s)
                                   (PyError "ValueError"
                                      ("invalid literal for int() with base 10: '" +:+ s +:+ "'"))
                     | None => ret 30
                     end;
         raise (HTTPException 503
                  ("Model loading, please wait " +:+ Py.str_of_int wait_time +:+ " seconds"))
       else
         raise_for_status u response;;
         j ← lift (body response);
         first ← lift (json_first j);
         lift (json_get first "generated_text" (JStr prompt)))
    (fun e =>
       match e with
       | RequestException _ =>
           raise (HTTPException 502 ("API request failed: " +:+ exn_str e))
       | _ => raise (HTTPException 500 (exn_str e))
       end).

(** The payload of [/generate-resume] ([ResumeInput] of models.py). *)
Record ResumeInput := {
  name : string;
  summary : string;
  experiences : list string;
  education : list string;
  skills : list string
}.

(** [data.get(section, [])] on the dict built by [resume_generation]. *)
Definition section_items (data : ResumeInput) (section : string) : list string :=
  if String.eqb section "experiences" then experiences data
  else if String.eqb section "education" then education data
  else if String.eqb section "skills" then skills data
  else [].

Definition section_ops (data : ResumeInput) (section : string) : list pdf_op :=
  [ Ln 10;
    SetFont None (Some "B") None;
    Cell 0 10 (Py.capitalize section) 1 None;
    SetFont None (Some "") None ]
  ++ map (fun item => MultiCell 0 10 ("- " +:+ item)) (section_items data section).

(** Calls made on the FPDF object, each recorded as it is made. *)
Definition pdf_calls (ops : list pdf_op) : M (list pdf_op) := (map EvPdf ops, Ok ops).

(** The calls made on the FPDF object, in order. The font sizes are read
    from the environment where the source reads them: as arguments of the
    [set_font] calls, after the calls before them were made. *)
Definition pdf_ops (env : gmap string string) (data : ResumeInput) : M (list pdf_op) :=
  page ← pdf_calls [AddPage];
  body_size ← lift (getenv_int env "PDF_FONT_SIZE" 12);
  font ← pdf_calls
           [SetFont (Some (default "Arial" (env !! "PDF_FONT"))) None (Some body_size)];
  title_size ← lift (getenv_int env "PDF_TITLE_SIZE" 24);
  title ← pdf_calls [ SetFont None None (Some title_size);
                      Cell 0 10 (name data) 1 (Some "C") ];
  body_size' ← lift (getenv_int env "PDF_FONT_SIZE" 12);
  content ← pdf_calls
              ([ SetFont None None (Some body_size');
                 MultiCell 0 10 (summary data) ]
               ++ concat (map (section_ops data) ["experiences"; "education"; "skills"]));
  ret (page ++ font ++ title ++ content).

Definition create_pdf (w : world) (env : gmap string string) (data : ResumeInput)
    : M (list Byte.byte) :=
  try_except
    (ops ← pdf_ops env data;
     call (EvRender ops) (fpdf_output w ops))
    (fun e => raise (HTTPException 500 ("PDF generation failed: " +:+ exn_str e))).

(** *** app.py *)


Record SpellCheckResult := {
  original_text : string;
  corrected_text : string;
  misspelled_words : list string
}.

Record StreamingResponse := {
  content : list Byte.byte;
  media_type : string;
  content_disposition : string
}.

Definition health_check (env : gmap string string) : M json :=
  n ← lift (getenv_int env "MAX_TEXT_LENGTH" 500);
  ret (JObj [ ("status", JStr "healthy");
               ("model", match env !! "MODEL_NAME" with Some m => JStr m | None => JNull end);
               ("max_length", JInt n) ]).

Definition spell_check (w : world) (input : string) : M SpellCheckResult :=
  r ← check_spelling w input;
  ret {| original_text := input;
          corrected_text := fst r;
          misspelled_words := snd r |}.


Definition resume_generation (w : world) (env : gmap string string)
    (input : ResumeInput) : M StreamingResponse :=
  pdf_bytes ← create_pdf w env input;
  ret {| content := pdf_bytes;
          media_type := "application/pdf";
          content_disposition :=
            "attachment; filename=" +:+ Py.replace " " "_" (name input) +:+ "_Resume.pdf" |}.

End Services.

(** ** Ai_resume.py *)
Module AiResume.

Record config := {
  HF_API_KEY : option string;
  DEFAULT_TEMPLATE : string;
  PDF_FONT : string;
  PDF_FONT_SIZE : Z;
  MAX_TEXT_LENGTH : Z;
  MODEL_NAME : string;
  API_TIMEOUT : Z
}.

Definition load_config (env : gmap string string) : outcome config :=
  match getenv_int env "PDF_FONT_SIZE" 12 with
  | Raise e => Raise e
  | Ok fs =>
      match getenv_int env "MAX_TEXT_LENGTH" 500 with
      | Raise e => Raise e
      | Ok m =>
          match getenv_int env "API_TIMEOUT" 30 with
          | Raise e => Raise e
          | Ok t => Ok {| HF_API_KEY := env !! "HF_API_KEY";
                          DEFAULT_TEMPLATE := default "Professional" (env !! "DEFAULT_TEMPLATE");
                          PDF_FONT := default "Arial" (env !! "PDF_FONT");
                          PDF_FONT_SIZE := fs;
                          MAX_TEXT_LENGTH := m;
                          MODEL_NAME := default "google/flan-t5-large" (env !! "MODEL_NAME");
                          API_TIMEOUT := t |}
          end
      end
  end.

(** The two kinds of entries; each is a dict with a fixed set of keys. *)
Module Edu.
Record entry := {
  degree : string;
  school : string;
  year : string;
  achievements : string;
  gpa : string
}.
Definition empty : entry :=
  {| degree := ""; school := ""; year := ""; achievements := ""; gpa := "" |}.
End Edu.

Module Exp.
Record entry := {
  role : string;
  company : string;
  years : string;
  months : Z;
  description : string;
  achievements : string;
  location : string
}.
Definition empty : entry :=
  {| role := ""; company := ""; years := ""; months := 0;
     description := ""; achievements := ""; location := "" |}.
Definition set_description (d : string) (e : entry) : entry :=
  {| role := role e; company := company e; years := years e; months := months e;
     description := d; achievements := achievements e; location := location e |}.
End Exp.

(** [st.session_state]. The text widgets live under their key in [fields];
    a key never assigned is absent. *)
Record session_state := {
  education_entries : list Edu.entry;
  experience_entries : list Exp.entry;
  ai_enhanced : bool;
  fields : gmap string string;
  spelling_errors : option (gmap string (string * list string));
  generated_text : option json
}.

(** The state after the initialisation block of the script. *)
Definition initial : session_state :=
  {| education_entries := [Edu.empty];
     experience_entries := [Exp.empty];
     ai_enhanced := false;
     fields := ∅;
     spelling_errors := None;
     generated_text := None |}.

Definition set_education_entries (l : list Edu.entry) (s : session_state) :=
  {| education_entries := l;
     experience_entries := experience_entries s;
     ai_enhanced := ai_enhanced s;
     fields := fields s;
     spelling_errors := spelling_errors s;
     generated_text := generated_text s |}.

Definition set_experience_entries (l : list Exp.entry) (s : session_state) :=
  {| education_entries := education_entries s;
     experience_entries := l;
     ai_enhanced := ai_enhanced s;
     fields := fields s;
     spelling_errors := spelling_errors s;
     generated_text := generated_text s |}.

Definition set_field (key value : string) (s : session_state) :=
  {| education_entries := education_entries s;
     experience_entries := experience_entries s;
     ai_enhanced := ai_enhanced s;
     fields := <[key := value]> (fields s);
     spelling_errors := spelling_errors s;
     generated_text := generated_text s |}.

Definition set_spelling_errors (c : gmap string (string * list string))
    (s : session_state) :=
  {| education_entries := education_entries s;
     experience_entries := experience_entries s;
     ai_enhanced := ai_enhanced s;
     fields := fields s;
     spelling_errors := Some c;
     generated_text := generated_text s |}.

Definition set_generated_text (j : json) (s : session_state) :=
  {| education_entries := education_entries s;
     experience_entries := experience_entries s;
     ai_enhanced := ai_enhanced s;
     fields := fields s;
     spelling_errors := spelling_errors s;
     generated_text := Some j |}.

(** [st.session_state.<key>] *)
Definition get_field (s : session_state) (key : string) : M string :=
  lift_opt (fields s !! key)
    (PyError "AttributeError" ("st.session_state has no attribute " +:+ key)).

(** *** Core functions *)

Definition check_spelling (w : world) (text : string) : M (string * list string) :=
  if negb (Py.truthy (Py.strip text)) then ret (text, [])
  else
    try_except
      (corrected ← call (EvCorrect text) (correct w text);
       ws ← call (EvWords text) (words w text);
       ms ← misspelled w corrected 0 ws;
       ret (corrected, ms))
      (fun e =>
         emit (EvUI (StError ("Spell check error: " +:+ exn_str e)));;
         ret (text, [])).

Definition default_max_length : Z := 200.
Definition default_temperature : float := 0x1.6666666666666p-1%float.   (* 0.7 *)

(** [max_length] and [temperature] are [None] when the caller leaves the
    argument out, which selects the default of the signature. *)
Definition generate_text (w : world) (cfg : config) (prompt : string)
    (max_length : option Z) (temperature : option float) : M json :=
  let max_length := default default_max_length max_length in
  let temperature := default default_temperature temperature in
  if negb (Py.truthy_opt (HF_API_KEY cfg))
  then emit (EvUI (StError "Hugging Face API key not configured"));; ret (JStr "")
  else
    try_except
      (let u := endpoint +:+ MODEL_NAME cfg in
       let req := {| url := u;
                     authorization := "Bearer " +:+ format_opt (HF_API_KEY cfg);
                     inputs := prompt;
                     max_new_tokens := Z.min max_length (MAX_TEXT_LENGTH cfg);
                     temperature := temperature;
                     do_sample := true;
                     top_p := 0x1.ccccccccccccdp-1%float;
                     return_full_text := false;
                     wait_for_model := true;
                     timeout := API_TIMEOUT cfg |} in
       response ← call (EvPost req) (post w req);
       if status_code response =? 503
       then
         wait_time ← match header_get (headers response) "estimated_time" with
                     | Some s => lift_opt (Py.int s)
                                   (PyError "ValueError"
                                      ("invalid literal for int() with base 10: '" +:+ s +:+ "'"))
                     | None => ret 30
                     end;
         emit (EvUI (StWarning ("Model is loading. Please wait "
                                  +:+ Py.str_of_int wait_time +:+ " seconds.")));;
         ret (JStr "")
       else
         raise_for_status u response;;
         result ← lift (body response);
         match result with
         | JArr (first :: _) => lift (json_get first "generated_text" (JStr prompt))
         | _ => ret (JStr prompt)
         end)
      (fun e =>
         match e with
         | RequestException _ =>
             emit (EvUI (StError ("API request failed: " +:+ exn_str e)));; ret (JStr "")
         | _ =>
             emit (EvUI (StError ("Text generation error: " +:+ exn_str e)));; ret (JStr "")
         end).

(** The dict handed to [create_pdf] by the render handler. *)
Record resume_data := {
  name : string;
  contact : string;
  summary : string;
  education : list Edu.entry;
  experience : list Exp.entry;
  skills : string * string;                   (* technical, soft *)
  additional : list (string * string)         (* projects, ..., volunteer *)
}.

Definition education_ops (e : Edu.entry) : list pdf_op :=
  let text := Edu.degree e +:+ " | " +:+ Edu.school e +:+ " | " +:+ Edu.year e in
  let text := if Py.truthy (Edu.gpa e) then text +:+ " | GPA: " +:+ Edu.gpa e else text in
  [MultiCell 0 10 text]
  (* an education entry has no 'description' key: entry.get gives None *)
  ++ (if Py.truthy (Edu.achievements e)
      then [MultiCell 0 10 ("Achievements: " +:+ Edu.achievements e)] else [])
  ++ [Ln 5].

Definition experience_ops (e : Exp.entry) : list pdf_op :=
  let text := Exp.role e +:+ " | " +:+ Exp.company e +:+ " | " +:+ Exp.years e +:+ " years" in
  let text := if Py.truthy (Exp.location e) then text +:+ " | " +:+ Exp.location e else text in
  [MultiCell 0 10 text]
  ++ (if Py.truthy (Exp.description e) then [MultiCell 0 10 (Exp.description e)] else [])
  ++ (if Py.truthy (Exp.achievements e)
      then [MultiCell 0 10 ("Achievements: " +:+ Exp.achievements e)] else [])
  ++ [Ln 5].

(** The inner loop [for entry in data.get(section, [])]. *)
Definition entries_ops (data : resume_data) (section : string) : list pdf_op :=
  if String.eqb section "education" then concat (map education_ops (education data))
  else if String.eqb section "experience" then concat (map experience_ops (experience data))
  else [].

Definition section_ops (data : resume_data) (section : string) : list pdf_op :=
  [ SetFont None (Some "B") None;
    Cell 0 10 (Py.capitalize section) 1 None;
    SetFont None (Some "") None ]
  ++ entries_ops data section.

(** The calls made on the FPDF object, in order. *)
Definition pdf_ops (cfg : config) (data : resume_data) : list pdf_op :=
  [ AddPage;
    SetFont (Some (PDF_FONT cfg)) None (Some (PDF_FONT_SIZE cfg));
    SetFont None None (Some 24);
    Cell 0 10 (name data) 1 (Some "C");
    SetFont None None (Some 12);
    Cell 0 10 (contact data) 1 (Some "C");
    Ln 10;
    SetFont None (Some "B") None;
    Cell 0 10 "Professional Summary" 1 None;
    SetFont None (Some "") None;
    MultiCell 0 10 (summary data);
    Ln 10 ]
  ++ concat (map (section_ops data) ["education"; "experience"]).

(** [None] is the [return None] of the exception handler. *)
Definition create_pdf (w : world) (cfg : config) (data : resume_data)
    : M (option (list Byte.byte)) :=
  try_except
    (let ops := pdf_ops cfg data in
     b ← call (EvRender ops) (fpdf_output w ops);
     ret (Some b))
    (fun e =>
       emit (EvUI (StError ("PDF generation failed: " +:+ exn_str e)));;
       ret None).

(** *** The handlers of the script, one per user action *)

(** [corrected, errors = check_spelling(text)] followed by
    [if errors: spelling_errors[key] = (corrected, errors)]. *)
Definition check_into (w : world) (key text : string)
    (acc : gmap string (string * list string)) : M (gmap string (string * list string)) :=
  r ← check_spelling w text;
  ret (match snd r with
       | [] => acc
       | _ :: _ => <[key := r]> acc
       end).

(** [for i, exp in enumerate(st.session_state.experience_entries)] *)
Fixpoint check_descriptions (w : world) (i : nat) (es : list Exp.entry)
    (acc : gmap string (string * list string)) : M (gmap string (string * list string)) :=
  match es with
  | [] => ret acc
  | exp :: rest =>
      acc' ← (if Py.truthy (Exp.description exp)
              then check_into w ("exp_desc_" +:+ Py.str_of_int (Z.of_nat i))
                     (Exp.description exp) acc
              else ret acc);
      check_descriptions w (S i) rest acc'
  end.

(** ['key' in st.session_state and st.session_state.key] guards the check. *)
Definition check_field (w : world) (s : session_state) (field key : string)
    (acc : gmap string (string * list string)) : M (gmap string (string * list string)) :=
  match fields s !! field with
  | Some t => if Py.truthy t then check_into w key t acc else ret acc
  | None => ret acc
  end.

(** The "Run Spell Check" button. *)
Definition run_spell_check (w : world) (s : session_state) : M session_state :=
  acc ← check_field w s "summary" "summary" ∅;
  acc ← check_field w s "technical_skills" "skills" acc;
  acc ← check_descriptions w 0 (experience_entries s) acc;
  if bool_decide (acc = ∅)
  then emit (EvUI (StSuccess "No spelling errors found!"));; ret s
  else emit (EvUI (StWarning "Spelling errors found! See suggestions below."));;
       ret (set_spelling_errors acc s).

Definition json_truthy (j : json) : bool :=
  match j with
  | JNull => false
  | JBool b => b
  | JInt n => negb (n =? 0)
  | JFloat x => Py.float_truthy x
  | JStr s => Py.truthy s
  | JArr [] => false
  | JArr (_ :: _) => true
  | JObj [] => false
  | JObj (_ :: _) => true
  end.

(** The "Generate Text" form, submitted with the values of its sliders. *)
Definition text_generator_submit (w : world) (cfg : config) (s : session_state)
    (text_prompt : string) (max_length : Z) (temperature : float) : M session_state :=
  if Py.truthy text_prompt
  then
    generated ← generate_text w cfg text_prompt (Some max_length) (Some temperature);
    ret (if json_truthy generated then set_generated_text generated s else s)
  else ret s.

(** What the widgets of the form hold. Streamlit keeps these values from
    one run of the script to the next. *)
Record widget_values := {
  text_values : gmap string string;
  education_values : list Edu.entry;
  experience_values : list Exp.entry
}.

(** Between two runs every text key and every field of every entry holds
    the value of its widget: the run before assigned them (lines 238-267,
    275-310, 327-376 and 393-417). *)
Definition widgets_of (s : session_state) : widget_values :=
  {| text_values := fields s;
     education_values := education_entries s;
     experience_values := experience_entries s |}.

(** [for i, entry in enumerate(entries): entries[i][...] = <widget>]: an
    entry that has widgets takes their values; the widgets of a new entry
    are created with the values of the entry. *)
Fixpoint assign_entries {A} (values entries : list A) : list A :=
  match entries, values with
  | _ :: entries', v :: values' => v :: assign_entries values' entries'
  | _, _ => entries
  end.

(** The top of the script, which every run executes before it reaches a
    button: the text keys and the fields of the entries are assigned from
    the widgets. *)
Definition assign_widgets (wv : widget_values) (s : session_state) : session_state :=
  {| education_entries := assign_entries (education_values wv) (education_entries s);
     experience_entries := assign_entries (experience_values wv) (experience_entries s);
     ai_enhanced := ai_enhanced s;
     fields := text_values wv;
     spelling_errors := spelling_errors s;
     generated_text := generated_text s |}.

(** The button "Apply corrections to <field>" of the corrections panel. The
    panel shows one button per key of the cached [spelling_errors]. The
    handler ends in [st.rerun()]: the script runs again from the top with
    the widgets as they are, and the state it leaves is the result. *)
Definition apply_corrections (s : session_state) (field : string) : M session_state :=
  match spelling_errors s with
  | None => ret s
  | Some cache =>
      match cache !! field with
      | None => ret s
      | Some (corrected, errors) =>
          s' ← (if String.eqb field "summary"
                then ret (set_field "summary" corrected s)
                else if String.eqb field "skills"
                then ret (set_field "technical_skills" corrected s)
                else if Py.startswith field "exp_desc"
                then
                  idx ← lift_opt (Py.int (Py.last_piece (Py.split "_" field)))
                          (PyError "ValueError" "invalid literal for int() with base 10");
                  i ← lift_opt (Py.index (length (experience_entries s)) idx)
                        (PyError "IndexError" "list index out of range");
                  ret (set_experience_entries
                         (alter (Exp.set_description corrected) i (experience_entries s)) s)
                else ret s);
          emit (EvUI (StSuccess "Corrections applied!"));;
          emit EvRerun;;
          ret (assign_widgets (widgets_of s) s')
      end
  end.

Definition add_education (s : session_state) : session_state :=
  set_education_entries (education_entries s ++ [Edu.empty]) s.

(** [if len(entries) > 1 and st.button(...): entries.pop()] *)
Definition remove_education (s : session_state) : session_state :=
  if (1 <? length (education_entries s))%nat
  then set_education_entries (removelast (education_entries s)) s
  else s.

Definition add_experience (s : session_state) : session_state :=
  set_experience_entries (experience_entries s ++ [Exp.empty]) s.

Definition remove_experience (s : session_state) : session_state :=
  if (1 <? length (experience_entries s))%nat
  then set_experience_entries (removelast (experience_entries s)) s
  else s.

Definition validation_message : string :=
  "Please fill in at least the required fields (marked with *)".

(** [not name or not email or not summary], read left to right. *)
Definition required_missing (s : session_state) : M bool :=
  n ← get_field s "name";
  if negb (Py.truthy n) then ret true
  else
    e ← get_field s "email";
    if negb (Py.truthy e) then ret true
    else
      sm ← get_field s "summary";
      ret (negb (Py.truthy sm)).

Definition prepare_data (s : session_state) : M resume_data :=
  n ← get_field s "name";
  email ← get_field s "email";
  phone ← get_field s "phone";
  address ← get_field s "address";
  sm ← get_field s "summary";
  technical ← get_field s "technical_skills";
  soft ← get_field s "soft_skills";
  projects ← get_field s "projects";
  certifications ← get_field s "certifications";
  languages ← get_field s "languages";
  publications ← get_field s "publications";
  volunteer ← get_field s "volunteer";
  ret {| name := n;
         contact := email +:+ " | " +:+ phone +:+ " | " +:+ address;
         summary := sm;
         education := education_entries s;
         experience := experience_entries s;
         skills := (technical, soft);
         additional := [ ("projects", projects); ("certifications", certifications);
                         ("languages", languages); ("publications", publications);
                         ("volunteer", volunteer) ] |}.

(** The "Generate Professional Resume" button. Labels are given without
    their leading pictogram. *)
Definition generate_resume (w : world) (cfg : config) (s : session_state) : M unit :=
  missing ← required_missing s;
  if (missing : bool)
  then emit (EvUI (StError validation_message))
  else
    data ← prepare_data s;
    pdf_bytes ← create_pdf w cfg data;
    match pdf_bytes with
    | Some (b :: bs) =>
        n ← get_field s "name";
        emit (EvUI (StDownloadButton "Download Resume as PDF" (b :: bs)
                      (Py.replace " " "_" n +:+ "_Resume.pdf") "application/pdf"));;
        emit (EvUI (StSuccess "Resume generated successfully!"))
    | _ => emit (EvUI (StError "Failed to generate PDF. Please try again."))
    end.

(** *** The session as a state machine *)

(** The keys assigned from the text widgets of the form. *)
Definition text_keys : list string :=
  [ "name"; "email"; "phone"; "linkedin"; "github"; "portfolio"; "address";
    "summary"; "technical_skills"; "soft_skills"; "template";
    "projects"; "certifications"; "languages"; "publications"; "volunteer" ].

Inductive action :=
| Input (key value : string)                 (* a text widget is filled *)
| EditEducation (i : nat) (e : Edu.entry)    (* the widgets of entry i *)
| EditExperience (i : nat) (e : Exp.entry)
| AddEducation
| RemoveEducation
| AddExperience
| RemoveExperience
| RunSpellCheck
| GenerateText (prompt : string) (max_length : Z) (temperature : float)
| ApplyCorrections (field : string)
| GenerateResume.

Definition handle (w : world) (cfg : config) (s : session_state) (a : action)
    : M session_state :=
  match a with
  | Input key value =>
      ret (if bool_decide (key ∈ text_keys) then set_field key value s else s)
  | EditEducation i e => ret (set_education_entries (<[i := e]> (education_entries s)) s)
  | EditExperience i e => ret (set_experience_entries (<[i := e]> (experience_entries s)) s)
  | AddEducation => ret (add_education s)
  | RemoveEducation => ret (remove_education s)
  | AddExperience => ret (add_experience s)
  | RemoveExperience => ret (remove_experience s)
  | RunSpellCheck => run_spell_check w s
  | GenerateText prompt max_length temperature =>
      text_generator_submit w cfg s prompt max_length temperature
  | ApplyCorrections field => apply_corrections s field
  | GenerateResume => generate_resume w cfg s;; ret s
  end.

(** An exception raised by a handler ends the script run; every handler
    assigns to the session only after its last fallible step, so the
    state is then the one before the action. *)
Definition step (w : world) (cfg : config) (s : session_state) (a : action)
    : session_state :=
  match result (handle w cfg s a) with
  | Ok s' => s'
  | Raise _ => s
  end.

Definition run (w : world) (cfg : config) (acts : list action) : session_state :=
  fold_left (step w cfg) acts initial.

End AiResume.


(** * Specification-side notions *)

(** "The caller-requested value, or the service default when none is
    requested". *)
Definition requested_or_default (requested : option Z) (service_default : Z) : Z :=
  match requested with
  | Some n => n
  | None => service_default
  end.

(** "Empty or consisting only of whitespace". *)
Fixpoint blank (s : string) : bool :=
  match s with
  | String c s' => Py.is_space c && blank s'
  | EmptyString => true
  end.

(** Positional comparison of two tokenizations: at every position present
    in both, a differing token of the original is reported; what lies
    beyond the shorter one is ignored. *)
Fixpoint positional_diff (original corrected : list string) : list string :=
  match original, corrected with
  | o :: original', c :: corrected' =>
      if String.eqb o c then positional_diff original' corrected'
      else o :: positional_diff original' corrected'
  | _, _ => []
  end.


(** Every text drawn, in order. *)
Fixpoint texts (ops : list pdf_op) : list string :=
  match ops with
  | [] => []
  | Cell _ _ txt _ _ :: rest => txt :: texts rest
  | MultiCell _ _ txt :: rest => txt :: texts rest
  | _ :: rest => texts rest
  end.


(** The upstream requests among the events of a computation. *)
Fixpoint posts (l : list event) : list request :=
  match l with
  | [] => []
  | EvPost r :: rest => r :: posts rest
  | _ :: rest => posts rest
  end.

(** The fields a correction can be applied to. *)
Inductive target :=
| Summary
| Skills
| ExperienceDescription (i : nat).

(** The key under which the spell check caches the result for a field. *)
Definition cache_key (t : target) : string :=
  match t with
  | Summary => "summary"
  | Skills => "skills"
  | ExperienceDescription i => "exp_desc_" +:+ Py.str_of_int (Z.of_nat i)
  end.

(** The text the session holds for a field. *)
Definition source_text (s : AiResume.session_state) (t : target) : option string :=
  match t with
  | Summary => AiResume.fields s !! "summary"
  | Skills => AiResume.fields s !! "technical_skills"
  | ExperienceDescription i =>
      AiResume.Exp.description <$> AiResume.experience_entries s !! i
  end.

(** The cached correction result for a key, if any. *)
Definition cached (s : AiResume.session_state) (key : string)
    : option (string * list string) :=
  match AiResume.spelling_errors s with
  | Some cache => cache !! key
  | None => None
  end.

(** The value of a decimal numeral read from the left with an accumulator. *)
Fixpoint uint_value (acc : Z) (d : Decimal.uint) : Z :=
  match d with
  | Decimal.Nil => acc
  | Decimal.D0 d => uint_value (10 * acc) d
  | Decimal.D1 d => uint_value (10 * acc + 1) d
  | Decimal.D2 d => uint_value (10 * acc + 2) d
  | Decimal.D3 d => uint_value (10 * acc + 3) d
  | Decimal.D4 d => uint_value (10 * acc + 4) d
  | Decimal.D5 d => uint_value (10 * acc + 5) d
  | Decimal.D6 d => uint_value (10 * acc + 6) d
  | Decimal.D7 d => uint_value (10 * acc + 7) d
  | Decimal.D8 d => uint_value (10 * acc + 8) d
  | Decimal.D9 d => uint_value (10 * acc + 9) d
  end.

Definition is_digit (c : ascii) : bool :=
  match Py.digit_of c with Some _ => true | None => false end.

Fixpoint all_digits (s : string) : bool :=
  match s with
  | String c s' => is_digit c && all_digits s'
  | EmptyString => true
  end.

(** Neither section of the form is empty. *)
Definition sections_ok (s : AiResume.session_state) : Prop :=
  (1 <= length (AiResume.education_entries s))%nat
  /\ (1 <= length (AiResume.experience_entries s))%nat.

(** The handlers that do not add or remove entries leave both sections at
    their length. *)
Definition same_sections (s s' : AiResume.session_state) : Prop :=
  length (AiResume.education_entries s') = length (AiResume.education_entries s)
  /\ length (AiResume.experience_entries s') = length (AiResume.experience_entries s).

(** * Sample inputs *)

(** The endpoint answers 503 with a retry delay of 20 in its headers. *)
Definition not_ready : response :=
  {| status_code := 503;
     reason := "Service Unavailable";
     headers := [("Content-Type", "application/json"); ("estimated_time", "20")];
     body := Ok (JObj [("error", JStr "Model is currently loading")]) |}.

Definition completion : response :=
  {| status_code := 200;
     reason := "OK";
     headers := [("Content-Type", "application/json")];
     body := Ok (JArr [JObj [("generated_text", JStr "Seasoned engineer.")]]) |}.

(** A toy spelling capability: tokens are separated by blanks, and the
    correction of any text is "the cat sat". *)
Definition sample_world (answer : outcome response) : world :=
  {| post := fun _ => answer;
     correct := fun _ => Ok "the cat sat";
     words := fun t => Ok (Py.split " " t);
     fpdf_output := fun _ => Ok [Byte.x25; Byte.x50; Byte.x44; Byte.x46];
     parse_float := fun s =>
       if String.eqb s "0.7" then Some 0x1.6666666666666p-1%float else None |}.

Definition sample_env : gmap string string :=
  <["HF_API_KEY" := "hf_key"]> (<["DEFAULT_TEMPERATURE" := "0.7"]> ∅).

(** Only the credential is set. *)
Definition credential_only : gmap string string := <["HF_API_KEY" := "hf_key"]> ∅.

Definition sample_config : Services.config :=
  {| Services.HF_API_KEY := Some "hf_key";
     Services.MODEL_NAME := None;
     Services.API_TIMEOUT := 30;
     Services.MAX_TEXT_LENGTH := 500 |}.

Definition sample_form_config : AiResume.config :=
  {| AiResume.HF_API_KEY := Some "hf_key";
     AiResume.DEFAULT_TEMPLATE := "Professional";
     AiResume.PDF_FONT := "Arial";
     AiResume.PDF_FONT_SIZE := 12;
     AiResume.MAX_TEXT_LENGTH := 500;
     AiResume.MODEL_NAME := "google/flan-t5-large";
     AiResume.API_TIMEOUT := 30 |}.

(** The request both programs build for the prompt "hi" under the sample
    configurations, up to its length and temperature. *)
Definition sample_request (u : string) (n : Z) (t : float) : request :=
  {| url := u;
     authorization := "Bearer hf_key";
     inputs := "hi";
     max_new_tokens := n;
     temperature := t;
     do_sample := true;
     top_p := 0x1.ccccccccccccdp-1%float;
     return_full_text := false;
     wait_for_model := true;
     timeout := 30 |}.

Definition half : float := 0x1p-1%float.

(** A filled form: Jane Doe, with skills and a project, and the two
    placeholder entries. *)
Definition sample_inputs : list AiResume.action :=
  [ AiResume.Input "name" "Jane Doe";
    AiResume.Input "email" "j@x.com";
    AiResume.Input "phone" "555";
    AiResume.Input "address" "Paris";
    AiResume.Input "summary" "Engineer.";
    AiResume.Input "technical_skills" "Python, SQL";
    AiResume.Input "soft_skills" "Leadership";
    AiResume.Input "projects" "A compiler";
    AiResume.Input "certifications" "";
    AiResume.Input "languages" "English";
    AiResume.Input "publications" "";
    AiResume.Input "volunteer" "" ].

Definition sample_session : AiResume.session_state :=
  AiResume.run (sample_world (Ok completion)) sample_form_config sample_inputs.

Definition sample_resume : AiResume.resume_data :=
  {| AiResume.name := "Jane Doe";
     AiResume.contact := "j@x.com | 555 | Paris";
     AiResume.summary := "Engineer.";
     AiResume.education := [AiResume.Edu.empty];
     AiResume.experience := [AiResume.Exp.empty];
     AiResume.skills := ("Python, SQL", "Leadership");
     AiResume.additional :=
       [ ("projects", "A compiler"); ("certifications", ""); ("languages", "English");
         ("publications", ""); ("volunteer", "") ] |}.

Definition sample_payload : Services.ResumeInput :=
  {| Services.name := "Jane Doe";
     Services.summary := "Engineer.";
     Services.experiences := ["Built a compiler"];
     Services.education := ["BSc"];
     Services.skills := ["Python"; "SQL"] |}.

(** The sample form after a summary with a typo was entered and checked. *)
Definition checked_session : AiResume.session_state :=
  AiResume.run (sample_world (Ok completion)) sample_form_config
    [AiResume.Input "summary" "teh cat sat"; AiResume.RunSpellCheck].

(** The sample form after a job description with a typo was entered and
    checked. *)
Definition described_session : AiResume.session_state :=
  AiResume.run (sample_world (Ok completion)) sample_form_config
    [ AiResume.EditExperience 0
        (AiResume.Exp.set_description "teh cat sat" AiResume.Exp.empty);
      AiResume.RunSpellCheck ].

(** The sample form with the name left empty. *)
Definition nameless_session : AiResume.session_state :=
  AiResume.run (sample_world (Ok completion)) sample_form_config
    (sample_inputs ++ [AiResume.Input "name" ""]).

(** * Further notions and sample inputs *)

(** No blank occurs in a string. *)
Fixpoint no_blank (s : string) : bool :=
  match s with
  | String c s' => negb (Ascii.eqb c " ") && no_blank s'
  | EmptyString => true
  end.

(** The endpoint does not know the model. *)
Definition not_found : response :=
  {| status_code := 404;
     reason := "Not Found";
     headers := [("Content-Type", "application/json")];
     body := Ok (JObj [("error", JStr "Model not found")]) |}.

(** The endpoint answers with no completion at all. *)
Definition empty_completion : response :=
  {| status_code := 200;
     reason := "OK";
     headers := [("Content-Type", "application/json")];
     body := Ok (JArr []) |}.

(** The endpoint is warming up and names no delay. *)
Definition not_ready_plain : response :=
  {| status_code := 503;
     reason := "Service Unavailable";
     headers := [("Content-Type", "application/json")];
     body := Ok (JObj [("error", JStr "Model is currently loading")]) |}.

(** A world whose spelling capability and renderer both fail. *)
Definition broken_world : world :=
  {| post := fun _ => Raise (RequestException "Connection refused");
     correct := fun _ => Raise (PyError "MissingCorpusError" "corpora not found");
     words := fun t => Ok (Py.split " " t);
     fpdf_output := fun _ => Raise (PyError "UnicodeEncodeError" "codec can't encode");
     parse_float := fun _ => None |}.

(** [int(response.headers.get("estimated_time", 30))]; [None] when the
    header is there and is no integer. *)
Definition retry_delay (resp : response) : option Z :=
  match header_get (headers resp) "estimated_time" with
  | Some s => Py.int s
  | None => Some 30
  end.

(** A cached result is sound for a session: its key is the key of a field
    that holds a text, not empty, and the result is what [check_spelling]
    gives for that text, with at least one misspelled word. *)
Definition entry_ok (w : world) (s : AiResume.session_state) (key : string)
    (v : string * list string) : Prop :=
  exists (t : target) (text : string),
    key = cache_key t
    /\ source_text s t = Some text
    /\ text <> EmptyString
    /\ result (AiResume.check_spelling w text) = Ok v
    /\ snd v <> [].

Definition cache_ok (w : world) (s : AiResume.session_state)
    (acc : gmap string (string * list string)) : Prop :=
  forall key v, acc !! key = Some v -> entry_ok w s key v.

(** What the corrections panel can show: every cached result belongs to
    the key of some field and lists at least one misspelled word. *)
Definition cache_shape (s : AiResume.session_state) : Prop :=
  forall key v,
    cached s key = Some v -> snd v <> [] /\ exists t : target, key = cache_key t.

(** The request the request service builds. *)
Definition services_request (cfg : Services.config) (prompt : string)
    (n : Z) (t : float) : request :=
  {| url := endpoint +:+ format_opt (Services.MODEL_NAME cfg);
     authorization := "Bearer " +:+ format_opt (Services.HF_API_KEY cfg);
     inputs := prompt;
     max_new_tokens := n;
     temperature := t;
     do_sample := true;
     top_p := 0x1.ccccccccccccdp-1%float;
     return_full_text := false;
     wait_for_model := true;
     timeout := Services.API_TIMEOUT cfg |}.

(** The request the interactive form builds. *)
Definition form_request (cfg : AiResume.config) (prompt : string)
    (n : Z) (t : float) : request :=
  {| url := endpoint +:+ AiResume.MODEL_NAME cfg;
     authorization := "Bearer " +:+ format_opt (AiResume.HF_API_KEY cfg);
     inputs := prompt;
     max_new_tokens := n;
     temperature := t;
     do_sample := true;
     top_p := 0x1.ccccccccccccdp-1%float;
     return_full_text := false;
     wait_for_model := true;
     timeout := AiResume.API_TIMEOUT cfg |}.

(** A form with two jobs, the second described with a typo, after the spell
    check and the removal of the second job. *)
Definition stale_session : AiResume.session_state :=
  AiResume.run (sample_world (Ok completion)) sample_form_config
    [ AiResume.AddExperience;
      AiResume.EditExperience 1
        (AiResume.Exp.set_description "teh cat sat" AiResume.Exp.empty);
      AiResume.RunSpellCheck;
      AiResume.RemoveExperience ].

(** * Proof automation for the event monad *)

(** Case analysis on the innermost scrutinee left in the goal. *)
Ltac case_step :=
  match goal with
  | |- context [match ?x with _ => _ end] =>
      lazymatch x with
      | context [match _ with _ => _ end] => fail
      | _ => destruct x eqn:?
      end
  end.

Ltac run_cases :=
  unfold mbind, M_bind, bind, try_except, call, raise, ret, lift, lift_opt, emit,
    raise_for_status, events, result in *;
  repeat (simpl in *; case_step);
  simpl in *.

(** The run of either [generate_text] up to the answer of the endpoint,
    given the credential test [Hk], the temperature [Ht] (request service
    only) and the answer [Hp]. *)
Ltac services_exchange Hk Ht Hp :=
  unfold Services.generate_text; rewrite Hk, Ht;
  unfold mbind, M_bind, bind, call, try_except; simpl;
  unfold services_request in Hp; rewrite Hp; simpl.

Ltac form_exchange Hk Hp :=
  unfold AiResume.generate_text; rewrite Hk;
  unfold mbind, M_bind, bind, call, try_except; simpl;
  unfold form_request in Hp; rewrite Hp; simpl.

(** * Properties *)

(** ** The correction service *)

Lemma lstrip_blank (s : string) : blank s = true -> Py.lstrip s = EmptyString.
Proof.
  induction s as [|c s IH]; simpl; [reflexivity|].
  intros [Hc Hs]%andb_prop. rewrite Hc. auto.
Qed.

Lemma strip_blank (s : string) : blank s = true -> Py.strip s = EmptyString.
Proof. intros H. unfold Py.strip. rewrite (lstrip_blank s H). reflexivity. Qed.

(** C6: blank input comes back unchanged with no misspelled word, and no
    event at all is recorded: neither TextBlob nor anything else is called. *)
Theorem check_spelling_blank (w : world) (text : string) :
  blank text = true ->
  Services.check_spelling w text = ([], Ok (text, []))
  /\ AiResume.check_spelling w text = ([], Ok (text, [])).
Proof.
  intros H. unfold Services.check_spelling, AiResume.check_spelling.
  rewrite (strip_blank text H). split; reflexivity.
Qed.

(** The theorem at a text of a blank, a tab and a line feed. *)
Lemma check_spelling_blank_witness :
  Services.check_spelling (sample_world (Ok completion)) (String " " (String "009" (String "010" "")))
  = ([], Ok (String " " (String "009" (String "010" "")), []))
  /\ AiResume.check_spelling (sample_world (Ok completion))
       (String " " (String "009" (String "010" "")))
     = ([], Ok (String " " (String "009" (String "010" "")), [])).
Proof.
  apply (check_spelling_blank (sample_world (Ok completion))
           (String " " (String "009" (String "010" "")))).
  reflexivity.
Defined.

Lemma result_bind {A B} (m : M A) (f : A -> M B) (a : A) :
  result m = Ok a -> result (m ≫= f) = result (f a).
Proof.
  destruct m as [l r]. simpl. intros ->.
  unfold mbind, M_bind, bind. destruct (f a). reflexivity.
Qed.

Lemma result_try_ok {A} (m : M A) (h : exn -> M A) (a : A) :
  result m = Ok a -> result (try_except m h) = Ok a.
Proof. destruct m as [l r]. simpl. intros ->. reflexivity. Qed.

Lemma positional_diff_nil_r (ws : list string) : positional_diff ws [] = [].
Proof. destruct ws; reflexivity. Qed.

(** The comprehension, started at position [i], compares the remaining
    original tokens with the corrected tokens from position [i] on. *)
Lemma misspelled_positional (w : world) (corrected : string) (cs : list string) :
  words w corrected = Ok cs ->
  forall (ws : list string) (i : nat),
    result (misspelled w corrected i ws) = Ok (positional_diff ws (drop i cs)).
Proof.
  intros Hcs ws. induction ws as [|word rest IH]; intros i.
  - reflexivity.
  - cbn [misspelled].
    rewrite (result_bind _ _ cs) by (unfold call; simpl; exact Hcs).
    destruct (Nat.ltb_spec i (length cs)) as [Hlt|Hge].
    + destruct (lookup_lt_is_Some_2 cs i Hlt) as [c Hc].
      rewrite (drop_S cs c i Hc).
      rewrite (result_bind _ _ (negb (String.eqb word c))).
      2:{ rewrite (result_bind _ _ cs) by (unfold call; simpl; exact Hcs).
          rewrite Hc. reflexivity. }
      rewrite (result_bind _ _ _ (IH (S i))).
      cbn [positional_diff]. destruct (String.eqb word c); reflexivity.
    + rewrite (drop_ge cs i) by lia.
      rewrite (result_bind _ _ false) by reflexivity.
      rewrite (result_bind _ _ _ (IH (S i))).
      rewrite (drop_ge cs (S i)) by lia.
      rewrite !positional_diff_nil_r. reflexivity.
Qed.

Lemma rstrip_empty_blank (s : string) : Py.rstrip s = EmptyString -> blank s = true.
Proof.
  induction s as [|c s IH]; simpl; [reflexivity|].
  destruct (Py.rstrip s) eqn:Hr; [|discriminate].
  destruct (Py.is_space c); [|discriminate].
  intros _. simpl. exact (IH eq_refl).
Qed.

Lemma blank_lstrip (s : string) : blank (Py.lstrip s) = true -> blank s = true.
Proof.
  induction s as [|c s IH]; simpl; [reflexivity|].
  destruct (Py.is_space c) eqn:Hc; simpl.
  - exact IH.
  - rewrite Hc. discriminate.
Qed.

(** [text.strip()] is empty exactly for blank text. *)
Lemma strip_empty_iff_blank (s : string) : Py.strip s = EmptyString <-> blank s = true.
Proof.
  split; [|apply strip_blank].
  intros H. apply blank_lstrip, rstrip_empty_blank, H.
Qed.

Lemma strip_truthy (s : string) : blank s = false -> Py.truthy (Py.strip s) = true.
Proof.
  intros Hb. destruct (Py.strip s) eqn:Hs; [|reflexivity].
  apply strip_empty_iff_blank in Hs. congruence.
Qed.

(** C5: on text that is not blank, with TextBlob answering, both
    [check_spelling] functions return the corrected text together with the
    positional difference of the two tokenizations. *)
Theorem check_spelling_positional (w : world) (text corrected : string)
    (ws cs : list string) :
  blank text = false ->
  correct w text = Ok corrected ->
  words w text = Ok ws ->
  words w corrected = Ok cs ->
  result (Services.check_spelling w text) = Ok (corrected, positional_diff ws cs)
  /\ result (AiResume.check_spelling w text) = Ok (corrected, positional_diff ws cs).
Proof.
  intros Hb Hc Hws Hcs.
  assert (Hrun : forall (k : M (string * list string)),
             k = (corrected0 ← call (EvCorrect text) (correct w text);
                  ws0 ← call (EvWords text) (words w text);
                  ms ← misspelled w corrected0 0 ws0;
                  ret (corrected0, ms)) ->
             result k = Ok (corrected, positional_diff ws cs)).
  { intros k ->.
    rewrite (result_bind _ _ corrected) by exact Hc.
    rewrite (result_bind _ _ ws) by exact Hws.
    rewrite (result_bind _ _ _ (misspelled_positional w corrected cs Hcs ws 0%nat)).
    rewrite drop_0. reflexivity. }
  unfold Services.check_spelling, AiResume.check_spelling.
  rewrite (strip_truthy text Hb). simpl negb. cbv iota.
  split; apply result_try_ok, Hrun; reflexivity.
Qed.

(** The theorem at a text whose correction has one token less: the first
    token is reported, the fourth has no counterpart and is passed over. *)
Lemma check_spelling_positional_witness :
  result (Services.check_spelling (sample_world (Ok completion)) "teh cat sat down")
  = Ok ("the cat sat", ["teh"])
  /\ result (AiResume.check_spelling (sample_world (Ok completion)) "teh cat sat down")
     = Ok ("the cat sat", ["teh"]).
Proof.
  apply (check_spelling_positional (sample_world (Ok completion)) "teh cat sat down"
           "the cat sat" ["teh"; "cat"; "sat"; "down"] ["the"; "cat"; "sat"]);
    reflexivity.
Defined.

(** ** The generation service *)

Lemma temperature_or_default_silent (w : world) (env : gmap string string)
    (t : option float) :
  events (Services.temperature_or_default w env t) = [].
Proof.
  unfold Services.temperature_or_default, Services.default_temperature.
  run_cases; reflexivity.
Qed.

(** Every run of the request service's [generate_text] reaches the endpoint
    at most once, and the request it sends is built from the arguments as
    the source spells it out. *)
Lemma services_generate_text_events (w : world) (cfg : Services.config)
    (env : gmap string string) (prompt : string) (m : option Z) (t : option float) :
  events (Services.generate_text w cfg env prompt m t) = []
  \/ exists r d,
       events (Services.generate_text w cfg env prompt m t) = [EvPost r]
       /\ max_new_tokens r
          = Z.min (Py.int_or m (Services.MAX_TEXT_LENGTH cfg)) (Services.MAX_TEXT_LENGTH cfg)
       /\ Services.temperature_or_default w env t = ([], Ok d)
       /\ temperature r = d.
Proof.
  unfold Services.generate_text.
  destruct (negb (Py.truthy_opt (Services.HF_API_KEY cfg))); [left; reflexivity|].
  pose proof (temperature_or_default_silent w env t) as Hs.
  destruct (Services.temperature_or_default w env t) as [l [d|e]] eqn:Ht;
    simpl in Hs; subst l.
  2:{ left. run_cases; reflexivity. }
  right.
  run_cases; eexists _, _; repeat split; reflexivity.
Qed.

(** Whatever happens, the exception leaving [generate_text] carries status
    500 or 502: the handler for [Exception] also catches the 503 raised in
    the body. *)
Lemma services_generate_text_status (w : world) (cfg : Services.config)
    (env : gmap string string) (prompt : string) (m : option Z) (t : option float)
    (e : exn) :
  result (Services.generate_text w cfg env prompt m t) = Raise e ->
  exists d, e = HTTPException 502 d \/ e = HTTPException 500 d.
Proof.
  unfold Services.generate_text.
  destruct (Services.temperature_or_default w env t) as [l [d|e']] eqn:Ht;
    run_cases; intros H; inversion H; subst; eauto.
Qed.

(** The interactive [generate_text] sends, if anything, one request whose
    length is the minimum of the argument (200 when left out) and the
    ceiling. *)
Lemma form_generate_text_posts (w : world) (cfg : AiResume.config) (prompt : string)
    (m : option Z) (t : option float) :
  posts (events (AiResume.generate_text w cfg prompt m t)) = []
  \/ exists r,
       posts (events (AiResume.generate_text w cfg prompt m t)) = [r]
       /\ max_new_tokens r
          = Z.min (default AiResume.default_max_length m) (AiResume.MAX_TEXT_LENGTH cfg).
Proof.
  unfold AiResume.generate_text.
  destruct (negb (Py.truthy_opt (AiResume.HF_API_KEY cfg))); [left; reflexivity|].
  right. run_cases; eexists; split; reflexivity.
Qed.

Lemma in_posts (l : list event) (r : request) : In (EvPost r) l -> In r (posts l).
Proof.
  induction l as [|ev l IH]; simpl; [tauto|].
  intros [->|H]; [left; reflexivity|].
  destruct ev; simpl; auto.
Qed.

Lemma int_or_requested (m : option Z) (d : Z) :
  m <> Some 0 -> Py.int_or m d = requested_or_default m d.
Proof.
  destruct m as [n|]; simpl; [|reflexivity].
  intros H. destruct (Z.eqb_spec n 0); [subst; congruence|reflexivity].
Qed.

(** C1, as the code has it: the length sent upstream never exceeds the
    ceiling. In the request service it is the minimum of the requested value
    and the ceiling for every request other than 0, a missing request
    standing for the ceiling itself; in the interactive form it is the
    minimum of the requested value, or 200, and the ceiling. *)
Theorem generate_text_max_length (w : world) :
  (forall (cfg : Services.config) (env : gmap string string) (prompt : string)
          (m : option Z) (t : option float) (r : request),
      In (EvPost r) (events (Services.generate_text w cfg env prompt m t)) ->
      max_new_tokens r <= Services.MAX_TEXT_LENGTH cfg
      /\ (m <> Some 0 ->
          max_new_tokens r
          = Z.min (requested_or_default m (Services.MAX_TEXT_LENGTH cfg))
                  (Services.MAX_TEXT_LENGTH cfg)))
  /\ (forall (cfg : AiResume.config) (prompt : string)
             (m : option Z) (t : option float) (r : request),
         In (EvPost r) (events (AiResume.generate_text w cfg prompt m t)) ->
         max_new_tokens r <= AiResume.MAX_TEXT_LENGTH cfg
         /\ max_new_tokens r
            = Z.min (requested_or_default m AiResume.default_max_length)
                    (AiResume.MAX_TEXT_LENGTH cfg)).
Proof.
  split.
  - intros cfg env prompt m t r Hin.
    destruct (services_generate_text_events w cfg env prompt m t)
      as [He|(r' & d & He & Hn & _ & _)]; rewrite He in Hin.
    + destruct Hin.
    + destruct Hin as [[= <-]|[]]. rewrite Hn. split; [lia|].
      intros Hm. rewrite (int_or_requested m _ Hm). reflexivity.
  - intros cfg prompt m t r Hin. apply in_posts in Hin.
    destruct (form_generate_text_posts w cfg prompt m t) as [He|(r' & He & Hn)];
      rewrite He in Hin.
    + destruct Hin.
    + destruct Hin as [<-|[]]. rewrite Hn. split; [lia|].
      destruct m; reflexivity.
Qed.

(** A request for 10000 under a ceiling of 500 sends 500, from either
    program. *)
Lemma generate_text_max_length_witness :
  (max_new_tokens (sample_request (endpoint +:+ "None") 500 half) <= 500
   /\ max_new_tokens (sample_request (endpoint +:+ "None") 500 half)
      = Z.min (requested_or_default (Some 10000) 500) 500)
  /\ (max_new_tokens (sample_request (endpoint +:+ "google/flan-t5-large") 500 half) <= 500
      /\ max_new_tokens (sample_request (endpoint +:+ "google/flan-t5-large") 500 half)
         = Z.min (requested_or_default (Some 10000) AiResume.default_max_length) 500).
Proof.
  split.
  - destruct (proj1 (generate_text_max_length (sample_world (Ok completion)))
                sample_config sample_env "hi" (Some 10000) (Some half)
                (sample_request (endpoint +:+ "None") 500 half)) as [Hle Heq].
    + left. reflexivity.
    + split; [exact Hle|]. apply Heq. discriminate.
  - apply (proj2 (generate_text_max_length (sample_world (Ok completion)))
             sample_form_config "hi" (Some 10000) (Some half)).
    left. reflexivity.
Defined.

(** C1 as worded fails in the request service for a requested length of 0:
    the minimum of 0 and the ceiling 500 is 0, yet 500 is sent. *)
Lemma generate_text_zero_length_sends_ceiling :
  exists r : request,
    events (Services.generate_text (sample_world (Ok completion)) sample_config sample_env
              "hi" (Some 0) (Some half)) = [EvPost r]
    /\ max_new_tokens r = 500
    /\ Z.min (requested_or_default (Some 0) (Services.MAX_TEXT_LENGTH sample_config))
             (Services.MAX_TEXT_LENGTH sample_config) = 0.
Proof. eexists. repeat split; reflexivity. Qed.

(** C2: the endpoint answers 503 with a retry delay of 20. One request is
    sent, and the exception that leaves [generate_text] carries status 500,
    not 503: the 503 raised in the body is caught by the handler for
    [Exception] of the same function and wrapped. *)
Theorem generate_text_not_ready_is_500 :
  Services.generate_text (sample_world (Ok not_ready)) sample_config sample_env
    "hi" None None
  = ([EvPost (sample_request (endpoint +:+ "None") 500 0x1.6666666666666p-1%float)],
     Raise (HTTPException 500 "503: Model loading, please wait 20 seconds")).
Proof. reflexivity. Qed.

(** The interactive form, on the same answer, reports the delay in a
    warning and returns the empty text. *)
Lemma form_generate_text_not_ready :
  AiResume.generate_text (sample_world (Ok not_ready)) sample_form_config "hi" None None
  = ([EvPost (sample_request (endpoint +:+ "google/flan-t5-large") 200
                0x1.6666666666666p-1%float);
      EvUI (StWarning "Model is loading. Please wait 20 seconds.")],
     Ok (JStr "")).
Proof. reflexivity. Qed.

(** A transport failure surfaces as 502. *)
Lemma generate_text_transport_failure (w : world) (cfg : Services.config)
    (env : gmap string string) (prompt : string) (m : option Z) (t : option float)
    (d : float) (msg : string) :
  Py.truthy_opt (Services.HF_API_KEY cfg) = true ->
  Services.temperature_or_default w env t = ([], Ok d) ->
  (forall r, post w r = Raise (RequestException msg)) ->
  result (Services.generate_text w cfg env prompt m t)
  = Raise (HTTPException 502 ("API request failed: " +:+ msg)).
Proof.
  intros Hk Ht Hp. unfold Services.generate_text. rewrite Hk, Ht.
  unfold mbind, M_bind, bind, call, try_except. simpl. rewrite Hp. reflexivity.
Qed.

(** C9: with only the credential configured, a generation request that
    names no temperature fails before anything is sent: no default stands
    in for the missing DEFAULT_TEMPERATURE. *)
Theorem generate_text_credential_only (w : world) (prompt : string) (m : option Z) :
  Services.load_config credential_only = Ok sample_config
  /\ Services.generate_text w sample_config credential_only prompt m None
     = ([], Raise (HTTPException 500
              "float() argument must be a string or a real number, not 'NoneType'")).
Proof. split; reflexivity. Qed.

(** The interactive form, under the same environment, sends its request
    with the defaults of its signature. *)
Lemma form_generate_text_credential_only :
  AiResume.load_config credential_only = Ok sample_form_config
  /\ AiResume.generate_text (sample_world (Ok completion)) sample_form_config "hi" None None
     = ([EvPost (sample_request (endpoint +:+ "google/flan-t5-large") 200
                   0x1.6666666666666p-1%float)],
        Ok (JStr "Seasoned engineer.")).
Proof. split; reflexivity. Qed.




(** ** The document renderer *)








(** The sample record is the one the render handler prepares from the
    sample session. *)
Lemma prepare_sample_session :
  AiResume.prepare_data sample_session = ([], Ok sample_resume).
Proof. vm_compute. reflexivity. Qed.



(** ** Applying a correction *)

Lemma digits_value_uint (d : Decimal.uint) (acc : Z) :
  Py.digits_value acc true (NilEmpty.string_of_uint d) = Some (uint_value acc d).
Proof.
  revert acc. induction d; intros acc; simpl; try apply IHd; try reflexivity.
  rewrite <- IHd. f_equal. lia.
Qed.

Lemma uint_value_pos (d : Decimal.uint) (acc : positive) :
  uint_value (Z.pos acc) d = Z.pos (Pos.of_uint_acc d acc).
Proof.
  revert acc. induction d; intros acc; simpl; try reflexivity;
    rewrite <- IHd; f_equal; lia.
Qed.

Lemma uint_value_of_uint (d : Decimal.uint) :
  uint_value 0 d = Z.of_N (Pos.of_uint d).
Proof.
  induction d; simpl; try reflexivity; try exact IHd; apply uint_value_pos.
Qed.

Lemma string_of_uint_digits (d : Decimal.uint) :
  all_digits (NilEmpty.string_of_uint d) = true.
Proof. induction d; simpl; auto. Qed.

(** Printing a natural number and reading it back as digits. *)
Lemma digits_value_str_of_int (n : nat) :
  Py.digits_value 0 false (Py.str_of_int (Z.of_nat n)) = Some (Z.of_nat n)
  /\ all_digits (Py.str_of_int (Z.of_nat n)) = true
  /\ Py.str_of_int (Z.of_nat n) <> EmptyString.
Proof.
  unfold Py.str_of_int. destruct (Z.of_nat n) as [|p|p] eqn:Hn; [| |lia].
  - repeat split; discriminate.
  - simpl. pose proof (Unsigned.to_uint_nonnil p) as Hnil.
    pose proof (DecimalPos.Unsigned.of_to p) as Hof.
    assert (Hv : uint_value 0 (Pos.to_uint p) = Z.pos p)
      by (rewrite uint_value_of_uint, Hof; reflexivity).
    destruct (Pos.to_uint p) as [|d|d|d|d|d|d|d|d|d|d] eqn:Hd; [congruence|..];
      (split; [simpl; rewrite digits_value_uint; f_equal; exact Hv|]);
      (split; [apply (string_of_uint_digits (_ d))|discriminate]).
Qed.

Lemma digit_char (c : ascii) :
  is_digit c = true ->
  Ascii.eqb c "_" = false /\ Py.is_space c = false
  /\ Ascii.eqb c "+" = false /\ Ascii.eqb c "-" = false.
Proof.
  destruct c as [[] [] [] [] [] [] [] []]; intros H; try discriminate H;
    repeat split; reflexivity.
Qed.

Lemma split_digits (s : string) : all_digits s = true -> Py.split "_" s = [s].
Proof.
  induction s as [|c s IH]; simpl; [reflexivity|].
  intros [Hc Hs]%andb_prop. destruct (digit_char c Hc) as (-> & _).
  rewrite (IH Hs). reflexivity.
Qed.

Lemma rstrip_digits (s : string) : all_digits s = true -> Py.rstrip s = s.
Proof.
  induction s as [|c s IH]; simpl; [reflexivity|].
  intros [Hc Hs]%andb_prop. rewrite (IH Hs).
  destruct (digit_char c Hc) as (_ & -> & _). destruct s; reflexivity.
Qed.

Lemma strip_digits (s : string) : all_digits s = true -> Py.strip s = s.
Proof.
  intros H. unfold Py.strip.
  assert (Hl : Py.lstrip s = s).
  { destruct s as [|c s]; [reflexivity|]. simpl in *.
    apply andb_prop in H as [Hc _]. destruct (digit_char c Hc) as (_ & -> & _).
    reflexivity. }
  rewrite Hl. apply rstrip_digits, H.
Qed.

Lemma int_digits (s : string) :
  all_digits s = true -> Py.int s = Py.digits_value 0 false s.
Proof.
  intros H. unfold Py.int. rewrite (strip_digits s H).
  destruct s as [|c s]; [reflexivity|].
  simpl in H. apply andb_prop in H as [Hc _].
  destruct c as [[] [] [] [] [] [] [] []]; try discriminate Hc; reflexivity.
Qed.

Lemma last_piece_exp_key (ds : string) :
  all_digits ds = true ->
  Py.last_piece (Py.split "_" ("exp_desc_" +:+ ds)) = ds.
Proof. intros Hd. simpl. change ("" +:+ ds) with ds. rewrite (split_digits ds Hd). reflexivity. Qed.

(** The index written into the key of an experience description is read
    back by the handler. *)
Lemma exp_key_index (n : nat) :
  Py.int (Py.last_piece (Py.split "_" (cache_key (ExperienceDescription n))))
  = Some (Z.of_nat n).
Proof.
  destruct (digits_value_str_of_int n) as (Hv & Hd & _).
  unfold cache_key. rewrite (last_piece_exp_key _ Hd).
  rewrite (int_digits _ Hd). exact Hv.
Qed.

Lemma index_in_range (len i : nat) :
  (i < len)%nat -> Py.index len (Z.of_nat i) = Some i.
Proof.
  intros H. unfold Py.index.
  destruct (Z.leb_spec 0 (Z.of_nat i)); [|lia].
  destruct (Z.ltb_spec (Z.of_nat i) (Z.of_nat len)); [|lia].
  simpl. rewrite Nat2Z.id. reflexivity.
Qed.

Lemma assign_entries_length {A} (values entries : list A) :
  length values = length entries -> AiResume.assign_entries values entries = values.
Proof.
  revert values. induction entries as [|e entries IH]; intros [|v values]; simpl;
    try discriminate; try reflexivity.
  intros [= H]. rewrite (IH values H). reflexivity.
Qed.

(** A run of the top of the script with the widgets of the state at rest
    gives that state back, whatever a handler assigned to the text keys and
    to the fields of the entries in between. *)
Lemma assign_widgets_of (s s' : AiResume.session_state) :
  length (AiResume.education_entries s') = length (AiResume.education_entries s) ->
  length (AiResume.experience_entries s') = length (AiResume.experience_entries s) ->
  AiResume.ai_enhanced s' = AiResume.ai_enhanced s ->
  AiResume.spelling_errors s' = AiResume.spelling_errors s ->
  AiResume.generated_text s' = AiResume.generated_text s ->
  AiResume.assign_widgets (AiResume.widgets_of s) s' = s.
Proof.
  intros Hedu Hexp Hai Hse Hgt. unfold AiResume.assign_widgets, AiResume.widgets_of.
  cbn [AiResume.text_values AiResume.education_values AiResume.experience_values].
  rewrite (assign_entries_length _ _ (eq_sym Hedu)),
    (assign_entries_length _ _ (eq_sym Hexp)), Hai, Hse, Hgt.
  destruct s; reflexivity.
Qed.

(** The three ways the "apply" handler can end: no button for the key;
    success, followed by the rerun, which leaves the session as it was
    before the click; or an exception before anything was shown. *)
Lemma apply_corrections_cases (s : AiResume.session_state) (field : string) :
  AiResume.apply_corrections s field = ([], Ok s)
  \/ AiResume.apply_corrections s field
     = ([EvUI (StSuccess "Corrections applied!"); EvRerun], Ok s)
  \/ exists e, AiResume.apply_corrections s field = ([], Raise e).
Proof.
  unfold AiResume.apply_corrections.
  destruct (AiResume.spelling_errors s) as [cache|]; [|left; reflexivity].
  destruct (cache !! field) as [[corrected errors]|]; [|left; reflexivity].
  assert (Hdone : forall s',
             length (AiResume.education_entries s') = length (AiResume.education_entries s) ->
             length (AiResume.experience_entries s')
             = length (AiResume.experience_entries s) ->
             AiResume.ai_enhanced s' = AiResume.ai_enhanced s ->
             AiResume.spelling_errors s' = AiResume.spelling_errors s ->
             AiResume.generated_text s' = AiResume.generated_text s ->
             AiResume.assign_widgets (AiResume.widgets_of s) s' = s)
    by exact (assign_widgets_of s).
  unfold mbind, M_bind, bind, lift_opt. unfold ret, emit, raise.
  destruct (String.eqb field "summary");
    [right; left; cbn [app]; rewrite Hdone; reflexivity|].
  destruct (String.eqb field "skills");
    [right; left; cbn [app]; rewrite Hdone; reflexivity|].
  destruct (Py.startswith field "exp_desc");
    [|right; left; cbn [app]; rewrite Hdone; reflexivity].
  destruct (Py.int (Py.last_piece (Py.split "_" field))) as [idx|];
    [|right; right; eexists; reflexivity].
  cbn [app].
  destruct (Py.index (length (AiResume.experience_entries s)) idx) as [i|];
    [|right; right; eexists; reflexivity].
  right; left. cbn [app]. rewrite Hdone; try reflexivity.
  simpl. apply length_alter.
Qed.

(** C3, as the code has it: applying the cached correction for a field
    reports success and restarts the script; no cached result is cleared:
    after the action the cached results are what they were, the one for
    that field included. *)
Theorem apply_corrections_keeps_cached_results (s : AiResume.session_state) (t : target)
    (corrected : string) (errors : list string) :
  cached s (cache_key t) = Some (corrected, errors) ->
  match t with
  | ExperienceDescription i => (i < length (AiResume.experience_entries s))%nat
  | _ => True
  end ->
  exists s' : AiResume.session_state,
    AiResume.apply_corrections s (cache_key t)
    = ([EvUI (StSuccess "Corrections applied!"); EvRerun], Ok s')
    /\ AiResume.spelling_errors s' = AiResume.spelling_errors s
    /\ cached s' (cache_key t) = Some (corrected, errors).
Proof.
  intros Hkey Hrange. exists s.
  split; [|split; [reflexivity|exact Hkey]].
  revert Hkey. unfold cached, AiResume.apply_corrections.
  destruct (AiResume.spelling_errors s) as [cache|] eqn:Hcache; [|discriminate].
  intros ->.
  destruct t as [| |i].
  - change (String.eqb (cache_key Summary) "summary") with true. cbv iota.
    unfold mbind, M_bind, bind, ret, emit. cbn [app].
    rewrite assign_widgets_of by reflexivity. reflexivity.
  - change (String.eqb (cache_key Skills) "summary") with false.
    change (String.eqb (cache_key Skills) "skills") with true. cbv iota.
    unfold mbind, M_bind, bind, ret, emit. cbn [app].
    rewrite assign_widgets_of by reflexivity. reflexivity.
  - change (String.eqb (cache_key (ExperienceDescription i)) "summary") with false.
    change (String.eqb (cache_key (ExperienceDescription i)) "skills") with false.
    change (Py.startswith (cache_key (ExperienceDescription i)) "exp_desc") with true.
    cbv iota. rewrite exp_key_index. unfold mbind, M_bind. cbn [lift_opt bind ret app].
    rewrite (index_in_range _ _ Hrange). unfold emit, bind, lift_opt, ret. cbn [app].
    rewrite assign_widgets_of; try reflexivity. simpl. apply length_alter.
Qed.

(** The theorem at the first experience entry of the sample session. *)
Lemma apply_corrections_keeps_cached_results_witness :
  exists s' : AiResume.session_state,
    AiResume.apply_corrections described_session "exp_desc_0"
    = ([EvUI (StSuccess "Corrections applied!"); EvRerun], Ok s')
    /\ AiResume.spelling_errors s' = AiResume.spelling_errors described_session
    /\ cached s' "exp_desc_0" = Some ("the cat sat", ["teh"]).
Proof.
  apply (apply_corrections_keeps_cached_results described_session
           (ExperienceDescription 0) "the cat sat" ["teh"]).
  - vm_compute. reflexivity.
  - vm_compute. lia.
Defined.

(** C3 as worded fails: after the correction of the summary was applied,
    the cached result for the summary is still there, and the summary is
    the text with the typo again: the rerun that ends the handler assigns
    it from its widget. *)
Lemma apply_corrections_clears_nothing :
  exists s' : AiResume.session_state,
    result (AiResume.apply_corrections checked_session "summary") = Ok s'
    /\ cached s' "summary" = Some ("the cat sat", ["teh"])
    /\ AiResume.fields s' !! "summary" = Some "teh cat sat".
Proof. eexists. split; [reflexivity|]. split; vm_compute; reflexivity. Qed.

(** ** The session *)

Lemma result_bind_inv {A B} (m : M A) (f : A -> M B) (b : B) :
  result (m ≫= f) = Ok b -> exists a, result m = Ok a /\ result (f a) = Ok b.
Proof.
  destruct m as [l [a|e]]; unfold mbind, M_bind, bind; simpl; [|discriminate].
  destruct (f a) as [l' r] eqn:Hf. simpl. intros ->. exists a. rewrite Hf. auto.
Qed.

Lemma run_spell_check_sections (w : world) (s s' : AiResume.session_state) :
  result (AiResume.run_spell_check w s) = Ok s' -> same_sections s s'.
Proof.
  unfold AiResume.run_spell_check. intros H.
  apply result_bind_inv in H as (acc1 & _ & H).
  apply result_bind_inv in H as (acc2 & _ & H).
  apply result_bind_inv in H as (acc3 & _ & H).
  destruct (bool_decide (acc3 = ∅)); inversion H; subst; split; reflexivity.
Qed.

Lemma text_generator_sections (w : world) (cfg : AiResume.config)
    (s s' : AiResume.session_state) (prompt : string) (m : Z) (t : float) :
  result (AiResume.text_generator_submit w cfg s prompt m t) = Ok s' -> same_sections s s'.
Proof.
  unfold AiResume.text_generator_submit.
  destruct (Py.truthy prompt); [|intros [= <-]; split; reflexivity].
  intros H. apply result_bind_inv in H as (g & _ & H).
  destruct (AiResume.json_truthy g); inversion H; subst; split; reflexivity.
Qed.

Lemma apply_corrections_sections (s s' : AiResume.session_state) (field : string) :
  result (AiResume.apply_corrections s field) = Ok s' -> same_sections s s'.
Proof.
  destruct (apply_corrections_cases s field) as [H|[H|[e H]]]; rewrite H;
    [intros [= <-]; split; reflexivity .. | discriminate].
Qed.

Lemma removelast_length {A} (l : list A) : length (removelast l) = pred (length l).
Proof.
  rewrite removelast_firstn_len, length_take. lia.
Qed.

(** Every action keeps both sections non-empty. *)
Lemma step_sections (w : world) (cfg : AiResume.config) (s : AiResume.session_state)
    (a : AiResume.action) :
  sections_ok s -> sections_ok (AiResume.step w cfg s a).
Proof.
  intros [Hedu Hexp]. unfold AiResume.step.
  destruct (result (AiResume.handle w cfg s a)) as [s'|e] eqn:Hh; [|split; assumption].
  destruct a; simpl in Hh.
  - injection Hh as <-. destruct (bool_decide _); split; assumption.
  - injection Hh as <-. split; simpl; [rewrite length_insert|]; assumption.
  - injection Hh as <-. split; simpl; [|rewrite length_insert]; assumption.
  - injection Hh as <-. split; simpl; [rewrite length_app; simpl; lia|assumption].
  - injection Hh as <-. unfold AiResume.remove_education.
    destruct (Nat.ltb_spec 1 (length (AiResume.education_entries s)));
      split; simpl; try assumption. rewrite removelast_length. lia.
  - injection Hh as <-. split; simpl; [assumption|rewrite length_app; simpl; lia].
  - injection Hh as <-. unfold AiResume.remove_experience.
    destruct (Nat.ltb_spec 1 (length (AiResume.experience_entries s)));
      split; simpl; try assumption. rewrite removelast_length. lia.
  - destruct (run_spell_check_sections w s s' Hh) as [H1 H2].
    split; [rewrite H1|rewrite H2]; assumption.
  - destruct (text_generator_sections w cfg s s' _ _ _ Hh) as [H1 H2].
    split; [rewrite H1|rewrite H2]; assumption.
  - destruct (apply_corrections_sections s s' _ Hh) as [H1 H2].
    split; [rewrite H1|rewrite H2]; assumption.
  - apply result_bind_inv in Hh as (u & _ & Hh). injection Hh as <-.
    split; assumption.
Qed.

Lemma run_sections (w : world) (cfg : AiResume.config) (acts : list AiResume.action)
    (s : AiResume.session_state) :
  sections_ok s -> sections_ok (fold_left (AiResume.step w cfg) acts s).
Proof.
  revert s. induction acts as [|a acts IH]; intros s Hs; simpl; [exact Hs|].
  apply IH, step_sections, Hs.
Qed.

(** C7: in every state the session reaches from its initial state, both
    sections hold at least one entry; removing is refused on a section of
    one entry; adding an entry appends the default entry behind the others,
    and removing it again gives back the state before; what a removal
    leaves are the first entries, in their order. *)
Theorem session_sections_never_empty (w : world) (cfg : AiResume.config)
    (acts : list AiResume.action) :
  let s := AiResume.run w cfg acts in
  (1 <= length (AiResume.education_entries s))%nat
  /\ (1 <= length (AiResume.experience_entries s))%nat
  /\ (length (AiResume.education_entries s) = 1%nat ->
      AiResume.step w cfg s AiResume.RemoveEducation = s)
  /\ (length (AiResume.experience_entries s) = 1%nat ->
      AiResume.step w cfg s AiResume.RemoveExperience = s)
  /\ AiResume.education_entries (AiResume.step w cfg s AiResume.AddEducation)
     = AiResume.education_entries s ++ [AiResume.Edu.empty]
  /\ AiResume.experience_entries (AiResume.step w cfg s AiResume.AddExperience)
     = AiResume.experience_entries s ++ [AiResume.Exp.empty]
  /\ AiResume.step w cfg (AiResume.step w cfg s AiResume.AddEducation)
       AiResume.RemoveEducation = s
  /\ AiResume.step w cfg (AiResume.step w cfg s AiResume.AddExperience)
       AiResume.RemoveExperience = s
  /\ (exists tail,
         AiResume.education_entries s
         = AiResume.education_entries (AiResume.step w cfg s AiResume.RemoveEducation)
           ++ tail)
  /\ (exists tail,
         AiResume.experience_entries s
         = AiResume.experience_entries (AiResume.step w cfg s AiResume.RemoveExperience)
           ++ tail).
Proof.
  intros s.
  assert (Hok : sections_ok s).
  { apply run_sections. split; simpl; lia. }
  destruct Hok as [Hedu Hexp].
  split; [exact Hedu|]. split; [exact Hexp|].
  unfold AiResume.step. simpl.
  unfold AiResume.remove_education, AiResume.remove_experience.
  split; [intros ->; reflexivity|]. split; [intros ->; reflexivity|].
  split; [reflexivity|]. split; [reflexivity|].
  simpl. rewrite !length_app. simpl.
  destruct (Nat.ltb_spec 1 (length (AiResume.education_entries s) + 1)); [|lia].
  destruct (Nat.ltb_spec 1 (length (AiResume.experience_entries s) + 1)); [|lia].
  rewrite !removelast_last.
  split; [destruct s; reflexivity|]. split; [destruct s; reflexivity|].
  split.
  - destruct (1 <? length (AiResume.education_entries s))%nat; simpl.
    + eexists. apply (app_removelast_last AiResume.Edu.empty).
      intros Hnil. rewrite Hnil in Hedu. simpl in Hedu. lia.
    + exists []. symmetry. apply app_nil_r.
  - destruct (1 <? length (AiResume.experience_entries s))%nat; simpl.
    + eexists. apply (app_removelast_last AiResume.Exp.empty).
      intros Hnil. rewrite Hnil in Hexp. simpl in Hexp. lia.
    + exists []. symmetry. apply app_nil_r.
Qed.

(** The theorem after one entry was added to each section and two removals
    of education entries were asked for. *)
Lemma session_sections_never_empty_witness :
  AiResume.step (sample_world (Ok completion)) sample_form_config
    (AiResume.run (sample_world (Ok completion)) sample_form_config
       [ AiResume.AddEducation; AiResume.AddExperience;
         AiResume.RemoveEducation; AiResume.RemoveExperience ])
    AiResume.RemoveEducation
  = AiResume.run (sample_world (Ok completion)) sample_form_config
      [ AiResume.AddEducation; AiResume.AddExperience;
        AiResume.RemoveEducation; AiResume.RemoveExperience ]
  /\ AiResume.step (sample_world (Ok completion)) sample_form_config
       (AiResume.run (sample_world (Ok completion)) sample_form_config
          [ AiResume.AddEducation; AiResume.AddExperience;
            AiResume.RemoveEducation; AiResume.RemoveExperience ])
       AiResume.RemoveExperience
     = AiResume.run (sample_world (Ok completion)) sample_form_config
         [ AiResume.AddEducation; AiResume.AddExperience;
           AiResume.RemoveEducation; AiResume.RemoveExperience ].
Proof.
  destruct (session_sections_never_empty (sample_world (Ok completion)) sample_form_config
              [ AiResume.AddEducation; AiResume.AddExperience;
                AiResume.RemoveEducation; AiResume.RemoveExperience ])
    as (_ & _ & Hedu & Hexp & _).
  split; [apply Hedu|apply Hexp]; reflexivity.
Defined.

(** ** Validation before rendering *)

(** The renderer is reached only past the validation of the three required
    fields. *)
Lemma render_needs_required_fields (w : world) (cfg : AiResume.config)
    (s : AiResume.session_state) (ops : list pdf_op) :
  In (EvRender ops) (events (AiResume.generate_resume w cfg s)) ->
  exists n e sm : string,
    AiResume.fields s !! "name" = Some n
    /\ AiResume.fields s !! "email" = Some e
    /\ AiResume.fields s !! "summary" = Some sm
    /\ n <> EmptyString /\ e <> EmptyString /\ sm <> EmptyString.
Proof.
  unfold AiResume.generate_resume, AiResume.required_missing, AiResume.get_field.
  destruct (AiResume.fields s !! "name") as [n|]; [|intros []].
  destruct n as [|c n]; [intros [H|[]]; discriminate H|].
  destruct (AiResume.fields s !! "email") as [e|]; [|intros []].
  destruct e as [|c' e]; [intros [H|[]]; discriminate H|].
  destruct (AiResume.fields s !! "summary") as [sm|]; [|intros []].
  destruct sm as [|c'' sm]; [intros [H|[]]; discriminate H|].
  intros _. eexists _, _, _. repeat split; discriminate.
Qed.

(** C8: with the three required fields of the form in the session, an empty
    one among them makes the render request end in the one validation
    message, with no other event: neither the renderer nor any other
    external capability is called. And whenever the renderer is called, the
    three fields are there and none is empty. *)
Theorem render_validates_first (w : world) (cfg : AiResume.config)
    (s : AiResume.session_state) :
  (forall n e sm : string,
      AiResume.fields s !! "name" = Some n ->
      AiResume.fields s !! "email" = Some e ->
      AiResume.fields s !! "summary" = Some sm ->
      n = EmptyString \/ e = EmptyString \/ sm = EmptyString ->
      AiResume.generate_resume w cfg s
      = ([EvUI (StError AiResume.validation_message)], Ok tt))
  /\ (forall ops : list pdf_op,
         In (EvRender ops) (events (AiResume.generate_resume w cfg s)) ->
         exists n e sm : string,
           AiResume.fields s !! "name" = Some n
           /\ AiResume.fields s !! "email" = Some e
           /\ AiResume.fields s !! "summary" = Some sm
           /\ n <> EmptyString /\ e <> EmptyString /\ sm <> EmptyString).
Proof.
  split; [|apply render_needs_required_fields].
  intros n e sm Hn He Hsm Hempty.
  unfold AiResume.generate_resume, AiResume.required_missing, AiResume.get_field.
  rewrite Hn, He, Hsm.
  destruct n as [|c n]; [reflexivity|].
  destruct e as [|c' e]; [reflexivity|].
  destruct sm as [|c'' sm]; [reflexivity|].
  destruct Hempty as [H|[H|H]]; discriminate H.
Qed.

(** The theorem at the sample form: with the name emptied the request ends
    in the validation message; filled in, it reaches the renderer. *)
Lemma render_validates_first_witness :
  AiResume.generate_resume (sample_world (Ok completion)) sample_form_config nameless_session
  = ([EvUI (StError AiResume.validation_message)], Ok tt)
  /\ (exists n e sm : string,
         AiResume.fields sample_session !! "name" = Some n
         /\ AiResume.fields sample_session !! "email" = Some e
         /\ AiResume.fields sample_session !! "summary" = Some sm
         /\ n <> EmptyString /\ e <> EmptyString /\ sm <> EmptyString).
Proof.
  split.
  - apply (proj1 (render_validates_first (sample_world (Ok completion)) sample_form_config
                    nameless_session) "" "j@x.com" "Engineer.");
      [vm_compute; reflexivity | vm_compute; reflexivity | vm_compute; reflexivity
      | left; reflexivity].
  - apply (proj2 (render_validates_first (sample_world (Ok completion)) sample_form_config
                    sample_session) (AiResume.pdf_ops sample_form_config sample_resume)).
    vm_compute. left. reflexivity.
Defined.

(** On the filled sample form the page is rendered and offered under the
    name with blanks replaced. *)
Lemma render_sample_session :
  AiResume.generate_resume (sample_world (Ok completion)) sample_form_config sample_session
  = ([ EvRender (AiResume.pdf_ops sample_form_config sample_resume);
       EvUI (StDownloadButton "Download Resume as PDF"
               [Byte.x25; Byte.x50; Byte.x44; Byte.x46]
               "Jane_Doe_Resume.pdf" "application/pdf");
       EvUI (StSuccess "Resume generated successfully!") ],
     Ok tt).
Proof. vm_compute. reflexivity. Qed.


(** * Further properties of the code *)

(** ** [generate_text] of the request service *)

(** The request that reaches the endpoint, if any, is the only event, and
    every field of it is fixed by the configuration and the arguments:
    sampling on, nucleus 0.9, no echo of the prompt, waiting for the model,
    the configured timeout. *)
Lemma services_generate_text_request (w : world) (cfg : Services.config)
    (env : gmap string string) (prompt : string) (m : option Z) (t : option float)
    (r : request) :
  In (EvPost r) (events (Services.generate_text w cfg env prompt m t)) ->
  exists d : float,
    Services.temperature_or_default w env t = ([], Ok d)
    /\ Py.truthy_opt (Services.HF_API_KEY cfg) = true
    /\ r = services_request cfg prompt
             (Z.min (Py.int_or m (Services.MAX_TEXT_LENGTH cfg))
                    (Services.MAX_TEXT_LENGTH cfg)) d
    /\ events (Services.generate_text w cfg env prompt m t) = [EvPost r].
Proof.
  unfold Services.generate_text.
  destruct (Py.truthy_opt (Services.HF_API_KEY cfg)) eqn:Hk; simpl negb; cbv iota;
    [|intros []].
  pose proof (temperature_or_default_silent w env t) as Hs.
  destruct (Services.temperature_or_default w env t) as [l [d|e]] eqn:Ht;
    simpl in Hs; subst l.
  2:{ run_cases; intros []. }
  intros Hin. exists d. split; [reflexivity|]. split; [reflexivity|].
  revert Hin. unfold services_request.
  run_cases; intros [[= <-]|[]]; split; reflexivity.
Qed.

(** X1: whatever the arguments and the world, at most one request is sent;
    it carries the prompt, sampling switched on, nucleus 0.9, no echo, the
    wait-for-model option, the configured timeout, the model's address and
    the credential, and a length within the ceiling. *)
Theorem services_sends_one_fixed_request (w : world) (cfg : Services.config)
    (env : gmap string string) (prompt : string) (m : option Z) (t : option float)
    (r : request) :
  In (EvPost r) (events (Services.generate_text w cfg env prompt m t)) ->
  events (Services.generate_text w cfg env prompt m t) = [EvPost r]
  /\ inputs r = prompt
  /\ do_sample r = true
  /\ top_p r = 0x1.ccccccccccccdp-1%float
  /\ return_full_text r = false
  /\ wait_for_model r = true
  /\ timeout r = Services.API_TIMEOUT cfg
  /\ url r = endpoint +:+ format_opt (Services.MODEL_NAME cfg)
  /\ authorization r = "Bearer " +:+ format_opt (Services.HF_API_KEY cfg)
  /\ max_new_tokens r <= Services.MAX_TEXT_LENGTH cfg.
Proof.
  intros Hin.
  destruct (services_generate_text_request w cfg env prompt m t r Hin)
    as (d & _ & _ & -> & He).
  split; [exact He|]. simpl. repeat split; try reflexivity. lia.
Qed.

Lemma services_sends_one_fixed_request_witness :
  events (Services.generate_text (sample_world (Ok completion)) sample_config sample_env
            "hi" (Some 120) None)
  = [EvPost (sample_request (endpoint +:+ "None") 120 0x1.6666666666666p-1%float)]
  /\ inputs (sample_request (endpoint +:+ "None") 120 0x1.6666666666666p-1%float) = "hi"
  /\ do_sample (sample_request (endpoint +:+ "None") 120 0x1.6666666666666p-1%float) = true
  /\ top_p (sample_request (endpoint +:+ "None") 120 0x1.6666666666666p-1%float)
     = 0x1.ccccccccccccdp-1%float
  /\ return_full_text (sample_request (endpoint +:+ "None") 120 0x1.6666666666666p-1%float)
     = false
  /\ wait_for_model (sample_request (endpoint +:+ "None") 120 0x1.6666666666666p-1%float)
     = true
  /\ timeout (sample_request (endpoint +:+ "None") 120 0x1.6666666666666p-1%float)
     = Services.API_TIMEOUT sample_config
  /\ url (sample_request (endpoint +:+ "None") 120 0x1.6666666666666p-1%float)
     = endpoint +:+ format_opt (Services.MODEL_NAME sample_config)
  /\ authorization (sample_request (endpoint +:+ "None") 120 0x1.6666666666666p-1%float)
     = "Bearer " +:+ format_opt (Services.HF_API_KEY sample_config)
  /\ max_new_tokens (sample_request (endpoint +:+ "None") 120 0x1.6666666666666p-1%float)
     <= Services.MAX_TEXT_LENGTH sample_config.
Proof.
  apply (services_sends_one_fixed_request (sample_world (Ok completion)) sample_config
           sample_env "hi" (Some 120) None).
  left. reflexivity.
Defined.

(** X2: an answer of the endpoint with an error status other than 503
    leaves the request service as status 502, like a transport failure:
    [raise_for_status] raises below [RequestException]. *)
Theorem services_upstream_error_is_502 (w : world) (cfg : Services.config)
    (env : gmap string string) (prompt : string) (m : option Z) (t : option float)
    (d : float) (resp : response) :
  Py.truthy_opt (Services.HF_API_KEY cfg) = true ->
  Services.temperature_or_default w env t = ([], Ok d) ->
  post w (services_request cfg prompt
            (Z.min (Py.int_or m (Services.MAX_TEXT_LENGTH cfg))
                   (Services.MAX_TEXT_LENGTH cfg)) d) = Ok resp ->
  400 <= status_code resp < 600 ->
  status_code resp <> 503 ->
  exists detail : string,
    result (Services.generate_text w cfg env prompt m t)
    = Raise (HTTPException 502 ("API request failed: " +:+ detail)).
Proof.
  intros Hk Ht Hp Hrange Hne. services_exchange Hk Ht Hp.
  destruct (Z.eqb_spec (status_code resp) 503); [contradiction|].
  unfold raise_for_status.
  destruct (Z.leb_spec 400 (status_code resp)); [|lia].
  destruct (Z.ltb_spec (status_code resp) 500); simpl; [eexists; reflexivity|].
  destruct (Z.leb_spec 500 (status_code resp)); [|lia].
  destruct (Z.ltb_spec (status_code resp) 600); [|lia].
  simpl. eexists; reflexivity.
Qed.

Lemma services_upstream_error_is_502_witness :
  exists detail : string,
    result (Services.generate_text (sample_world (Ok not_found)) sample_config sample_env
              "hi" None None)
    = Raise (HTTPException 502 ("API request failed: " +:+ detail)).
Proof.
  apply (services_upstream_error_is_502 (sample_world (Ok not_found)) sample_config
           sample_env "hi" None None 0x1.6666666666666p-1%float not_found);
    [reflexivity | reflexivity | reflexivity | simpl; lia | discriminate].
Defined.

(** X3: when the call to the endpoint itself fails below
    [RequestException], the request service raises status 502 with the
    message of the failure; any other exception of the call gives 500. *)
Theorem services_transport_failure_is_502 (w : world) (cfg : Services.config)
    (env : gmap string string) (prompt : string) (m : option Z) (t : option float)
    (d : float) (e : exn) :
  Py.truthy_opt (Services.HF_API_KEY cfg) = true ->
  Services.temperature_or_default w env t = ([], Ok d) ->
  post w (services_request cfg prompt
            (Z.min (Py.int_or m (Services.MAX_TEXT_LENGTH cfg))
                   (Services.MAX_TEXT_LENGTH cfg)) d) = Raise e ->
  result (Services.generate_text w cfg env prompt m t)
  = Raise (match e with
           | RequestException msg => HTTPException 502 ("API request failed: " +:+ msg)
           | _ => HTTPException 500 (exn_str e)
           end).
Proof.
  intros Hk Ht Hp. services_exchange Hk Ht Hp. destruct e; reflexivity.
Qed.

Lemma services_transport_failure_is_502_witness :
  result (Services.generate_text
            (sample_world (Raise (RequestException "Connection refused")))
            sample_config sample_env "hi" None None)
  = Raise (HTTPException 502 "API request failed: Connection refused").
Proof.
  apply (services_transport_failure_is_502
           (sample_world (Raise (RequestException "Connection refused")))
           sample_config sample_env "hi" None None 0x1.6666666666666p-1%float
           (RequestException "Connection refused"));
    reflexivity.
Defined.

(** A status below 400 (or from 600 on) passes [raise_for_status] and is
    not the warm-up status. *)
Lemma status_passes (u : string) (resp : response) :
  status_code resp < 400 \/ 600 <= status_code resp ->
  (status_code resp =? 503) = false /\ raise_for_status u resp = ([], Ok tt).
Proof.
  intros H. unfold raise_for_status. split.
  - destruct (Z.eqb_spec (status_code resp) 503); [lia|reflexivity].
  - destruct (Z.leb_spec 400 (status_code resp)), (Z.ltb_spec (status_code resp) 500),
      (Z.leb_spec 500 (status_code resp)), (Z.ltb_spec (status_code resp) 600);
      simpl; try reflexivity; lia.
Qed.

(** X4: on a successful answer whose first completion is an object, both
    programs return its [generated_text] field, and the prompt itself when
    the field is missing. *)
Theorem generate_text_returns_field_or_prompt (w : world) (scfg : Services.config)
    (fcfg : AiResume.config) (env : gmap string string) (prompt : string)
    (m : option Z) (t : option float) (d : float) (resp : response)
    (kvs : list (string * json)) (others : list json) :
  Py.truthy_opt (Services.HF_API_KEY scfg) = true ->
  Py.truthy_opt (AiResume.HF_API_KEY fcfg) = true ->
  Services.temperature_or_default w env t = ([], Ok d) ->
  post w (services_request scfg prompt
            (Z.min (Py.int_or m (Services.MAX_TEXT_LENGTH scfg))
                   (Services.MAX_TEXT_LENGTH scfg)) d) = Ok resp ->
  post w (form_request fcfg prompt
            (Z.min (default AiResume.default_max_length m) (AiResume.MAX_TEXT_LENGTH fcfg))
            (default AiResume.default_temperature t)) = Ok resp ->
  status_code resp < 400 \/ 600 <= status_code resp ->
  body resp = Ok (JArr (JObj kvs :: others)) ->
  result (Services.generate_text w scfg env prompt m t)
  = Ok (default (JStr prompt) (obj_get kvs "generated_text"))
  /\ result (AiResume.generate_text w fcfg prompt m t)
     = Ok (default (JStr prompt) (obj_get kvs "generated_text")).
Proof.
  intros Hks Hkf Ht Hps Hpf Hst Hb. split.
  - destruct (status_passes (endpoint +:+ format_opt (Services.MODEL_NAME scfg)) resp Hst)
      as [H503 Hpass].
    services_exchange Hks Ht Hps. rewrite H503, Hpass, Hb. simpl.
    destruct (obj_get kvs "generated_text"); reflexivity.
  - destruct (status_passes (endpoint +:+ AiResume.MODEL_NAME fcfg) resp Hst)
      as [H503 Hpass].
    form_exchange Hkf Hpf. rewrite H503, Hpass, Hb. simpl.
    destruct (obj_get kvs "generated_text"); reflexivity.
Qed.

Lemma generate_text_returns_field_or_prompt_witness :
  result (Services.generate_text (sample_world (Ok completion)) sample_config sample_env
            "hi" None None)
  = Ok (JStr "Seasoned engineer.")
  /\ result (AiResume.generate_text (sample_world (Ok completion)) sample_form_config
               "hi" None None)
     = Ok (JStr "Seasoned engineer.").
Proof.
  apply (generate_text_returns_field_or_prompt (sample_world (Ok completion)) sample_config
           sample_form_config sample_env "hi" None None 0x1.6666666666666p-1%float
           completion [("generated_text", JStr "Seasoned engineer.")] []);
    try reflexivity; left; simpl; lia.
Defined.

(** X5: on a successful answer with an empty list of completions the two
    programs part: the request service fails with status 500 (indexing the
    empty list), the interactive form returns the prompt. *)
Theorem generate_text_empty_completions (w : world) (scfg : Services.config)
    (fcfg : AiResume.config) (env : gmap string string) (prompt : string)
    (m : option Z) (t : option float) (d : float) (resp : response) :
  Py.truthy_opt (Services.HF_API_KEY scfg) = true ->
  Py.truthy_opt (AiResume.HF_API_KEY fcfg) = true ->
  Services.temperature_or_default w env t = ([], Ok d) ->
  post w (services_request scfg prompt
            (Z.min (Py.int_or m (Services.MAX_TEXT_LENGTH scfg))
                   (Services.MAX_TEXT_LENGTH scfg)) d) = Ok resp ->
  post w (form_request fcfg prompt
            (Z.min (default AiResume.default_max_length m) (AiResume.MAX_TEXT_LENGTH fcfg))
            (default AiResume.default_temperature t)) = Ok resp ->
  status_code resp < 400 \/ 600 <= status_code resp ->
  body resp = Ok (JArr []) ->
  result (Services.generate_text w scfg env prompt m t)
  = Raise (HTTPException 500 "list index out of range")
  /\ AiResume.generate_text w fcfg prompt m t
     = ([EvPost (form_request fcfg prompt
                   (Z.min (default AiResume.default_max_length m)
                          (AiResume.MAX_TEXT_LENGTH fcfg))
                   (default AiResume.default_temperature t))],
        Ok (JStr prompt)).
Proof.
  intros Hks Hkf Ht Hps Hpf Hst Hb. split.
  - destruct (status_passes (endpoint +:+ format_opt (Services.MODEL_NAME scfg)) resp Hst)
      as [H503 Hpass].
    services_exchange Hks Ht Hps. rewrite H503, Hpass, Hb. reflexivity.
  - destruct (status_passes (endpoint +:+ AiResume.MODEL_NAME fcfg) resp Hst)
      as [H503 Hpass].
    form_exchange Hkf Hpf. rewrite H503, Hpass, Hb. reflexivity.
Qed.

Lemma generate_text_empty_completions_witness :
  result (Services.generate_text (sample_world (Ok empty_completion)) sample_config
            sample_env "hi" None None)
  = Raise (HTTPException 500 "list index out of range")
  /\ AiResume.generate_text (sample_world (Ok empty_completion)) sample_form_config
       "hi" None None
     = ([EvPost (form_request sample_form_config "hi"
                   (Z.min (default AiResume.default_max_length None)
                          (AiResume.MAX_TEXT_LENGTH sample_form_config))
                   (default AiResume.default_temperature None))],
        Ok (JStr "hi")).
Proof.
  apply (generate_text_empty_completions (sample_world (Ok empty_completion)) sample_config
           sample_form_config sample_env "hi" None None 0x1.6666666666666p-1%float
           empty_completion);
    try reflexivity; left; simpl; lia.
Defined.

(** ** [generate_text] of the interactive form *)

(** X6: the interactive [generate_text] lets no exception out: whatever the
    endpoint does, it ends in a value. *)
Theorem form_generate_text_never_raises (w : world) (cfg : AiResume.config)
    (prompt : string) (m : option Z) (t : option float) :
  exists j : json, result (AiResume.generate_text w cfg prompt m t) = Ok j.
Proof.
  unfold AiResume.generate_text.
  run_cases; eexists; reflexivity.
Qed.

(** X7: without a credential (none, or the empty string) the interactive
    form sends nothing, shows one error and returns the empty text; the
    request service sends nothing and raises status 500. *)
Theorem generate_text_without_credential (w : world) (scfg : Services.config)
    (fcfg : AiResume.config) (env : gmap string string) (prompt : string)
    (m : option Z) (t : option float) :
  (Services.HF_API_KEY scfg = None \/ Services.HF_API_KEY scfg = Some EmptyString) ->
  (AiResume.HF_API_KEY fcfg = None \/ AiResume.HF_API_KEY fcfg = Some EmptyString) ->
  Services.generate_text w scfg env prompt m t
  = ([], Raise (HTTPException 500 "Hugging Face API key not configured"))
  /\ AiResume.generate_text w fcfg prompt m t
     = ([EvUI (StError "Hugging Face API key not configured")], Ok (JStr "")).
Proof.
  intros Hs Hf. unfold Services.generate_text, AiResume.generate_text.
  destruct Hs as [-> | ->], Hf as [-> | ->]; split; reflexivity.
Qed.

Lemma generate_text_without_credential_witness :
  Services.generate_text broken_world
    {| Services.HF_API_KEY := Some ""; Services.MODEL_NAME := None;
       Services.API_TIMEOUT := 30; Services.MAX_TEXT_LENGTH := 500 |}
    sample_env "hi" None None
  = ([], Raise (HTTPException 500 "Hugging Face API key not configured"))
  /\ AiResume.generate_text broken_world
       {| AiResume.HF_API_KEY := None;
          AiResume.DEFAULT_TEMPLATE := "Professional";
          AiResume.PDF_FONT := "Arial";
          AiResume.PDF_FONT_SIZE := 12;
          AiResume.MAX_TEXT_LENGTH := 500;
          AiResume.MODEL_NAME := "google/flan-t5-large";
          AiResume.API_TIMEOUT := 30 |}
       "hi" None None
     = ([EvUI (StError "Hugging Face API key not configured")], Ok (JStr "")).
Proof.
  apply generate_text_without_credential; [right; reflexivity | left; reflexivity].
Defined.

(** X8: the request of the interactive form, if one is sent, is the only
    request; it carries the temperature as passed (0.7 when left out, and
    0.0 when 0.0 is passed), the prompt and the fixed sampling options. *)
Theorem form_sends_one_fixed_request (w : world) (cfg : AiResume.config)
    (prompt : string) (m : option Z) (t : option float) (r : request) :
  In (EvPost r) (events (AiResume.generate_text w cfg prompt m t)) ->
  posts (events (AiResume.generate_text w cfg prompt m t)) = [r]
  /\ r = form_request cfg prompt
           (Z.min (default AiResume.default_max_length m) (AiResume.MAX_TEXT_LENGTH cfg))
           (default AiResume.default_temperature t).
Proof.
  unfold AiResume.generate_text, form_request.
  destruct (negb (Py.truthy_opt (AiResume.HF_API_KEY cfg)));
    [intros [H|[]]; discriminate H|].
  run_cases;
    repeat match goal with
           | |- _ \/ _ -> _ => intros [H|H]; [try discriminate H; injection H as <-|revert H]
           | |- False -> _ => intros []
           end;
    split; reflexivity.
Qed.

Lemma form_sends_one_fixed_request_witness :
  posts (events (AiResume.generate_text (sample_world (Ok completion)) sample_form_config
                   "hi" (Some 120) (Some 0%float)))
  = [form_request sample_form_config "hi" 120 0%float]
  /\ form_request sample_form_config "hi" 120 0%float
     = form_request sample_form_config "hi"
         (Z.min (default AiResume.default_max_length (Some 120))
                (AiResume.MAX_TEXT_LENGTH sample_form_config))
         (default AiResume.default_temperature (Some 0%float)).
Proof.
  apply (form_sends_one_fixed_request (sample_world (Ok completion)) sample_form_config
           "hi" (Some 120) (Some 0%float)).
  left. reflexivity.
Defined.

(** X9: on the warm-up status 503 the interactive form warns with the delay
    of the [estimated_time] header, 30 when the header is missing, and
    returns the empty text; a header that is no integer ends in the message
    for a failed generation instead. Nothing is sent a second time. *)
Theorem form_not_ready (w : world) (cfg : AiResume.config) (prompt : string)
    (m : option Z) (t : option float) (resp : response) :
  Py.truthy_opt (AiResume.HF_API_KEY cfg) = true ->
  post w (form_request cfg prompt
            (Z.min (default AiResume.default_max_length m) (AiResume.MAX_TEXT_LENGTH cfg))
            (default AiResume.default_temperature t)) = Ok resp ->
  status_code resp = 503 ->
  exists shown : ui,
    AiResume.generate_text w cfg prompt m t
    = ([EvPost (form_request cfg prompt
                  (Z.min (default AiResume.default_max_length m)
                         (AiResume.MAX_TEXT_LENGTH cfg))
                  (default AiResume.default_temperature t));
        EvUI shown],
       Ok (JStr ""))
    /\ match retry_delay resp with
       | Some n => shown = StWarning ("Model is loading. Please wait "
                                        +:+ Py.str_of_int n +:+ " seconds.")
       | None => exists detail, shown = StError ("Text generation error: " +:+ detail)
       end.
Proof.
  intros Hk Hp Hst. form_exchange Hk Hp. rewrite Hst. simpl.
  unfold retry_delay, lift_opt, ret, raise.
  destruct (header_get (headers resp) "estimated_time") as [s|]; simpl.
  - destruct (Py.int s); simpl; eexists; split; eauto.
  - eexists; split; eauto.
Qed.

Lemma form_not_ready_witness :
  exists shown : ui,
    AiResume.generate_text (sample_world (Ok not_ready_plain)) sample_form_config
      "hi" None None
    = ([EvPost (form_request sample_form_config "hi"
                  (Z.min (default AiResume.default_max_length None)
                         (AiResume.MAX_TEXT_LENGTH sample_form_config))
                  (default AiResume.default_temperature None));
        EvUI shown],
       Ok (JStr ""))
    /\ match retry_delay not_ready_plain with
       | Some n => shown = StWarning ("Model is loading. Please wait "
                                        +:+ Py.str_of_int n +:+ " seconds.")
       | None => exists detail, shown = StError ("Text generation error: " +:+ detail)
       end.
Proof.
  apply (form_not_ready (sample_world (Ok not_ready_plain)) sample_form_config "hi"
           None None not_ready_plain); reflexivity.
Defined.

(** X10: every exception that leaves the request service's [generate_text]
    is an [HTTPException] of status 500 or 502. *)
Theorem services_generate_text_raises_500_or_502 (w : world) (cfg : Services.config)
    (env : gmap string string) (prompt : string) (m : option Z) (t : option float)
    (e : exn) :
  result (Services.generate_text w cfg env prompt m t) = Raise e ->
  exists (st : Z) (detail : string),
    e = HTTPException st detail /\ (st = 500 \/ st = 502).
Proof.
  intros H. destruct (services_generate_text_status w cfg env prompt m t e H)
    as [d [-> | ->]]; eexists _, _; split; eauto.
Qed.

Lemma services_generate_text_raises_500_or_502_witness :
  exists (st : Z) (detail : string),
    HTTPException 502 "API request failed: 404 Client Error: Not Found for url: https://api-inference.huggingface.co/models/None"
    = HTTPException st detail /\ (st = 500 \/ st = 502).
Proof.
  apply (services_generate_text_raises_500_or_502 (sample_world (Ok not_found))
           sample_config sample_env "hi" None None).
  reflexivity.
Defined.

(** ** [check_spelling] *)

(** X11: the interactive [check_spelling] lets no exception out, and every
    exception that leaves the one of the request service is an
    [HTTPException] of status 500 whose detail starts "Spell check error: ". *)
Theorem check_spelling_failures (w : world) (text : string) :
  (exists r, result (AiResume.check_spelling w text) = Ok r)
  /\ (forall e, result (Services.check_spelling w text) = Raise e ->
        exists detail, e = HTTPException 500 ("Spell check error: " +:+ detail)).
Proof.
  unfold AiResume.check_spelling, Services.check_spelling.
  destruct (negb (Py.truthy (Py.strip text)));
    [split; [eexists; reflexivity|discriminate]|].
  match goal with
  | |- context [try_except ?m _] => destruct m as [l [a|e0]]
  end; simpl.
  - split; [eexists; reflexivity|discriminate].
  - split; [eexists; reflexivity|]. intros e [= <-]. eexists; reflexivity.
Qed.

Lemma check_spelling_failures_witness :
  (exists r, result (AiResume.check_spelling broken_world "teh cat") = Ok r)
  /\ (exists detail,
         HTTPException 500 "Spell check error: corpora not found"
         = HTTPException 500 ("Spell check error: " +:+ detail)).
Proof.
  destruct (check_spelling_failures broken_world "teh cat") as [Hf Hs].
  split; [exact Hf|]. apply Hs. reflexivity.
Defined.

(** X12: when TextBlob fails to correct a text that is not blank, the
    interactive form shows the failure once and gives the text back
    unchanged with no misspelled word, after that single call; the request
    service raises status 500 with the same message. *)
Theorem check_spelling_capability_fails (w : world) (text : string) (e : exn) :
  blank text = false ->
  correct w text = Raise e ->
  AiResume.check_spelling w text
  = ([EvCorrect text; EvUI (StError ("Spell check error: " +:+ exn_str e))],
     Ok (text, []))
  /\ Services.check_spelling w text
     = ([EvCorrect text], Raise (HTTPException 500 ("Spell check error: " +:+ exn_str e))).
Proof.
  intros Hb Hc. unfold AiResume.check_spelling, Services.check_spelling.
  rewrite (strip_truthy text Hb). unfold mbind, M_bind, bind, call, try_except. simpl.
  rewrite Hc. split; reflexivity.
Qed.

Lemma check_spelling_capability_fails_witness :
  AiResume.check_spelling broken_world "teh cat"
  = ([EvCorrect "teh cat"; EvUI (StError "Spell check error: corpora not found")],
     Ok ("teh cat", []))
  /\ Services.check_spelling broken_world "teh cat"
     = ([EvCorrect "teh cat"],
        Raise (HTTPException 500 "Spell check error: corpora not found")).
Proof.
  apply (check_spelling_capability_fails broken_world "teh cat"
           (PyError "MissingCorpusError" "corpora not found")); reflexivity.
Defined.

(** The value of both [check_spelling] functions when TextBlob answers. *)
Lemma check_spelling_answer (w : world) (text corrected : string) (ws cs : list string) :
  blank text = false ->
  correct w text = Ok corrected ->
  words w text = Ok ws ->
  words w corrected = Ok cs ->
  result (Services.check_spelling w text) = Ok (corrected, positional_diff ws cs)
  /\ result (AiResume.check_spelling w text) = Ok (corrected, positional_diff ws cs).
Proof.
  intros Hb Hc Hws Hcs.
  unfold Services.check_spelling, AiResume.check_spelling.
  rewrite (strip_truthy text Hb). simpl negb. cbv iota.
  split; apply result_try_ok;
    rewrite (result_bind _ _ corrected) by exact Hc;
    rewrite (result_bind _ _ ws) by exact Hws;
    rewrite (result_bind _ _ _ (misspelled_positional w corrected cs Hcs ws 0%nat));
    rewrite drop_0; reflexivity.
Qed.

Lemma positional_diff_in (ws cs : list string) (x : string) :
  In x (positional_diff ws cs) -> In x ws.
Proof.
  revert cs. induction ws as [|o ws IH]; intros [|c cs]; simpl; try tauto.
  destruct (String.eqb o c); simpl; [eauto|]. intros [->|H]; eauto.
Qed.

Lemma positional_diff_length (ws cs : list string) :
  (length (positional_diff ws cs) <= Nat.min (length ws) (length cs))%nat.
Proof.
  revert cs. induction ws as [|o ws IH]; intros [|c cs]; simpl; try lia.
  specialize (IH cs). destruct (String.eqb o c); simpl; lia.
Qed.

Lemma positional_diff_same (ws : list string) : positional_diff ws ws = [].
Proof.
  induction ws as [|o ws IH]; simpl; [reflexivity|].
  rewrite String.eqb_refl. exact IH.
Qed.

(** X13: when TextBlob answers, both [check_spelling] functions report the
    same words; every reported word is a token of the original text, there
    are at most as many as the shorter tokenization has tokens, and none
    when the correction leaves the tokens as they are. *)
Theorem misspelled_words_bounds (w : world) (text corrected : string)
    (ws cs : list string) :
  blank text = false ->
  correct w text = Ok corrected ->
  words w text = Ok ws ->
  words w corrected = Ok cs ->
  exists ms : list string,
    result (Services.check_spelling w text) = Ok (corrected, ms)
    /\ result (AiResume.check_spelling w text) = Ok (corrected, ms)
    /\ (forall x, In x ms -> In x ws)
    /\ (length ms <= Nat.min (length ws) (length cs))%nat
    /\ (cs = ws -> ms = []).
Proof.
  intros Hb Hc Hws Hcs.
  destruct (check_spelling_answer w text corrected ws cs Hb Hc Hws Hcs) as [Hs Hf].
  exists (positional_diff ws cs). split; [exact Hs|]. split; [exact Hf|].
  split; [intros x; apply positional_diff_in|].
  split; [apply positional_diff_length|].
  intros ->. apply positional_diff_same.
Qed.

Lemma misspelled_words_bounds_witness :
  exists ms : list string,
    result (Services.check_spelling (sample_world (Ok completion)) "teh cat sat down")
    = Ok ("the cat sat", ms)
    /\ result (AiResume.check_spelling (sample_world (Ok completion)) "teh cat sat down")
       = Ok ("the cat sat", ms)
    /\ (forall x, In x ms -> In x ["teh"; "cat"; "sat"; "down"])
    /\ (length ms <= Nat.min (length ["teh"; "cat"; "sat"; "down"])
                             (length ["the"; "cat"; "sat"]))%nat
    /\ (["the"; "cat"; "sat"] = ["teh"; "cat"; "sat"; "down"] -> ms = []).
Proof.
  apply (misspelled_words_bounds (sample_world (Ok completion)) "teh cat sat down"
           "the cat sat" ["teh"; "cat"; "sat"; "down"] ["the"; "cat"; "sat"]);
    reflexivity.
Defined.

(** X14: the spelling capability is called exactly when the text is not
    blank: the event log of either [check_spelling] is empty if and only
    if the text is blank, and otherwise starts with the correction of the
    text itself. *)
Theorem check_spelling_calls_iff_not_blank (w : world) (text : string) :
  (events (Services.check_spelling w text) = [] <-> blank text = true)
  /\ (events (AiResume.check_spelling w text) = [] <-> blank text = true)
  /\ (blank text = true
      \/ exists rest rest',
           events (Services.check_spelling w text) = EvCorrect text :: rest
           /\ events (AiResume.check_spelling w text) = EvCorrect text :: rest').
Proof.
  unfold Services.check_spelling, AiResume.check_spelling.
  destruct (blank text) eqn:Hb.
  - rewrite (strip_blank text Hb). simpl. repeat split; auto.
  - rewrite (strip_truthy text Hb). simpl negb. cbv iota.
    assert (Hs : exists rest, events (try_except
                   (corrected ← call (EvCorrect text) (correct w text);
                    ws ← call (EvWords text) (words w text);
                    ms ← misspelled w corrected 0 ws;
                    ret (corrected, ms))
                   (fun e => raise (HTTPException 500 ("Spell check error: " +:+ exn_str e))))
                 = EvCorrect text :: rest).
    { run_cases; eexists; reflexivity. }
    assert (Hf : exists rest, events (try_except
                   (corrected ← call (EvCorrect text) (correct w text);
                    ws ← call (EvWords text) (words w text);
                    ms ← misspelled w corrected 0 ws;
                    ret (corrected, ms))
                   (fun e =>
                      emit (EvUI (StError ("Spell check error: " +:+ exn_str e)));;
                      ret (text, [])))
                 = EvCorrect text :: rest).
    { run_cases; eexists; reflexivity. }
    destruct Hs as [rest Hs], Hf as [rest' Hf]. rewrite Hs, Hf.
    split; [split; discriminate|]. split; [split; discriminate|].
    right. eexists _, _. split; reflexivity.
Qed.

(** ** The renderers *)

Lemma texts_items (items : list string) (rest : list pdf_op) :
  texts (map (fun item => MultiCell 0 10 ("- " +:+ item)) items ++ rest)
  = map (fun item => "- " +:+ item) items ++ texts rest.
Proof. induction items as [|i items IH]; simpl; [reflexivity|]. rewrite IH. reflexivity. Qed.

(** X15: the page of the request service shows, in this order, the name,
    the summary, and under the headings "Experiences", "Education" and
    "Skills" every item of the payload's list, each behind a dash, in the
    order of the list. *)
Theorem services_pdf_texts (env : gmap string string) (payload : Services.ResumeInput)
    (ops : list pdf_op) :
  result (Services.pdf_ops env payload) = Ok ops ->
  texts ops
  = [Services.name payload; Services.summary payload]
    ++ ["Experiences"] ++ map (fun item => "- " +:+ item) (Services.experiences payload)
    ++ ["Education"] ++ map (fun item => "- " +:+ item) (Services.education payload)
    ++ ["Skills"] ++ map (fun item => "- " +:+ item) (Services.skills payload).
Proof.
  unfold Services.pdf_ops, lift, ret, mbind, M_bind, bind, result.
  destruct (getenv_int env "PDF_FONT_SIZE" 12) as [fs|e]; [|discriminate].
  destruct (getenv_int env "PDF_TITLE_SIZE" 24) as [ts|e]; [|discriminate].
  simpl. intros [= <-]. simpl.
  do 3 (rewrite texts_items; simpl). rewrite app_nil_r. reflexivity.
Qed.

Lemma services_pdf_texts_witness :
  exists ops : list pdf_op,
    result (Services.pdf_ops ∅ sample_payload) = Ok ops
    /\ texts ops
       = [ "Jane Doe"; "Engineer."; "Experiences"; "- Built a compiler";
           "Education"; "- BSc"; "Skills"; "- Python"; "- SQL" ].
Proof.
  eexists. split; [reflexivity|].
  apply (services_pdf_texts ∅ sample_payload). reflexivity.
Defined.



Lemma replace_no_blank (s : string) : no_blank (Py.replace " " "_" s) = true.
Proof.
  unfold Py.replace. induction s as [|c s IH]; [reflexivity|].
  cbn [Py.map_chars no_blank]. rewrite IH, andb_true_r.
  destruct (Ascii.eqb_spec c " ") as [->|Hc]; [reflexivity|].
  destruct (Ascii.eqb_spec c " "); [contradiction|reflexivity].
Qed.

Lemma replace_without_blank (s : string) :
  no_blank s = true -> Py.replace " " "_" s = s.
Proof.
  unfold Py.replace. induction s as [|c s IH]; [reflexivity|].
  cbn [Py.map_chars no_blank]. intros [Hc Hs]%andb_prop. rewrite (IH Hs).
  destruct (Ascii.eqb c " "); [discriminate|reflexivity].
Qed.

Lemma replace_length (s : string) :
  String.length (Py.replace " " "_" s) = String.length s.
Proof.
  unfold Py.replace. induction s as [|c s IH]; [reflexivity|].
  cbn [Py.map_chars String.length]. rewrite IH. reflexivity.
Qed.

(** X17: the file name offered by [/generate-resume] is the name with
    every blank turned into an underscore, followed by "_Resume.pdf": its
    stem has the length of the name and no blank, and is the name itself
    when the name has no blank. The answer carries the renderer's bytes as
    a PDF. *)
Theorem resume_generation_file_name (w : world) (env : gmap string string)
    (input : Services.ResumeInput) (resp : Services.StreamingResponse) :
  result (Services.resume_generation w env input) = Ok resp ->
  exists (stem : string) (ops : list pdf_op),
    Services.content_disposition resp = "attachment; filename=" +:+ stem +:+ "_Resume.pdf"
    /\ no_blank stem = true
    /\ String.length stem = String.length (Services.name input)
    /\ (no_blank (Services.name input) = true -> stem = Services.name input)
    /\ Services.media_type resp = "application/pdf"
    /\ result (Services.pdf_ops env input) = Ok ops
    /\ fpdf_output w ops = Ok (Services.content resp).
Proof.
  unfold Services.resume_generation. intros H.
  apply result_bind_inv in H as (bytes & Hpdf & H). injection H as <-.
  unfold Services.create_pdf in Hpdf.
  destruct (Services.pdf_ops env input) as [l [ops|e0]] eqn:Hops;
    unfold mbind, M_bind, bind, call, try_except in Hpdf; simpl in Hpdf;
    [|discriminate Hpdf].
  destruct (fpdf_output w ops) as [b|e0] eqn:Hout; simpl in Hpdf; [|discriminate Hpdf].
  injection Hpdf as <-.
  exists (Py.replace " " "_" (Services.name input)), ops. simpl.
  split; [reflexivity|]. split; [apply replace_no_blank|].
  split; [apply replace_length|]. split; [apply replace_without_blank|].
  split; [reflexivity|]. split; [reflexivity|exact Hout].
Qed.

Lemma resume_generation_file_name_witness :
  exists (stem : string) (ops : list pdf_op),
    "attachment; filename=Jane_Doe_Resume.pdf"
    = "attachment; filename=" +:+ stem +:+ "_Resume.pdf"
    /\ no_blank stem = true
    /\ String.length stem = String.length (Services.name sample_payload)
    /\ (no_blank (Services.name sample_payload) = true -> stem = Services.name sample_payload)
    /\ "application/pdf" = "application/pdf"
    /\ result (Services.pdf_ops ∅ sample_payload) = Ok ops
    /\ fpdf_output (sample_world (Ok completion)) ops
       = Ok [Byte.x25; Byte.x50; Byte.x44; Byte.x46].
Proof.
  apply (resume_generation_file_name (sample_world (Ok completion)) ∅ sample_payload
           {| Services.content := [Byte.x25; Byte.x50; Byte.x44; Byte.x46];
              Services.media_type := "application/pdf";
              Services.content_disposition := "attachment; filename=Jane_Doe_Resume.pdf" |}).
  vm_compute. reflexivity.
Defined.

(** X18: the health probe reports the configuration [generate_text] works
    with: whenever the module-level configuration loads, the probe answers
    with its model name and with its ceiling as [max_length]. *)
Theorem health_check_reports_config (env : gmap string string) (cfg : Services.config) :
  Services.load_config env = Ok cfg ->
  Services.health_check env
  = ([], Ok (JObj [ ("status", JStr "healthy");
                    ("model", match Services.MODEL_NAME cfg with
                              | Some name => JStr name
                              | None => JNull
                              end);
                    ("max_length", JInt (Services.MAX_TEXT_LENGTH cfg)) ])).
Proof.
  unfold Services.load_config, Services.health_check.
  destruct (getenv_int env "API_TIMEOUT" 30) as [tm|e]; [|discriminate].
  destruct (getenv_int env "MAX_TEXT_LENGTH" 500) as [n|e]; [|discriminate].
  intros [= <-]. reflexivity.
Qed.

Lemma health_check_reports_config_witness :
  Services.health_check credential_only
  = ([], Ok (JObj [ ("status", JStr "healthy");
                    ("model", match Services.MODEL_NAME sample_config with
                              | Some name => JStr name
                              | None => JNull
                              end);
                    ("max_length", JInt (Services.MAX_TEXT_LENGTH sample_config)) ])).
Proof.
  apply (health_check_reports_config credential_only sample_config). reflexivity.
Defined.

(** ** The render handler of the form *)

(** X19: with the form filled in and the three required fields not empty,
    the render request calls the renderer once with the page of the
    prepared record and ends without exception in one of three ways: bytes
    came back, and the download is offered under the name with blanks
    turned into underscores; no byte came back, and one failure message is
    shown; the renderer raised, and two messages are shown. *)
Theorem render_outcomes (w : world) (cfg : AiResume.config) (s : AiResume.session_state)
    (data : AiResume.resume_data) (email : string) :
  AiResume.prepare_data s = ([], Ok data) ->
  AiResume.fields s !! "email" = Some email ->
  AiResume.name data <> EmptyString ->
  email <> EmptyString ->
  AiResume.summary data <> EmptyString ->
  AiResume.generate_resume w cfg s
  = (EvRender (AiResume.pdf_ops cfg data)
       :: match fpdf_output w (AiResume.pdf_ops cfg data) with
          | Ok (b :: bs) =>
              [ EvUI (StDownloadButton "Download Resume as PDF" (b :: bs)
                        (Py.replace " " "_" (AiResume.name data) +:+ "_Resume.pdf")
                        "application/pdf");
                EvUI (StSuccess "Resume generated successfully!") ]
          | Ok [] => [ EvUI (StError "Failed to generate PDF. Please try again.") ]
          | Raise e =>
              [ EvUI (StError ("PDF generation failed: " +:+ exn_str e));
                EvUI (StError "Failed to generate PDF. Please try again.") ]
          end,
     Ok tt).
Proof.
  intros Hprep Hemail Hn He Hsm.
  unfold AiResume.generate_resume, AiResume.required_missing.
  assert (Hname : AiResume.fields s !! "name" = Some (AiResume.name data)
                  /\ AiResume.fields s !! "summary" = Some (AiResume.summary data)).
  { revert Hprep. unfold AiResume.prepare_data, AiResume.get_field, lift_opt.
    repeat match goal with
           | |- context [AiResume.fields s !! ?k] =>
               destruct (AiResume.fields s !! k);
               unfold mbind, M_bind, bind, ret, raise; simpl; [|discriminate]
           end.
    intros [= <-]. split; reflexivity. }
  destruct Hname as [Hname Hsummary].
  unfold AiResume.get_field at 1 2 3. rewrite Hname, Hemail, Hsummary.
  destruct (AiResume.name data) as [|c1 n1] eqn:En; [contradiction|].
  destruct email as [|c2 e2]; [contradiction|].
  destruct (AiResume.summary data) as [|c3 s3] eqn:Es; [contradiction|].
  unfold lift_opt, mbind, M_bind, ret. simpl. rewrite Hprep. simpl.
  unfold AiResume.create_pdf, AiResume.get_field, bind, call, try_except. simpl.
  rewrite Hname.
  destruct (fpdf_output w (AiResume.pdf_ops cfg data)) as [[|b bs]|e]; simpl;
    rewrite ?En; reflexivity.
Qed.

Lemma render_outcomes_witness :
  AiResume.generate_resume broken_world sample_form_config sample_session
  = (EvRender (AiResume.pdf_ops sample_form_config sample_resume)
       :: match fpdf_output broken_world (AiResume.pdf_ops sample_form_config sample_resume) with
          | Ok (b :: bs) =>
              [ EvUI (StDownloadButton "Download Resume as PDF" (b :: bs)
                        (Py.replace " " "_" (AiResume.name sample_resume) +:+ "_Resume.pdf")
                        "application/pdf");
                EvUI (StSuccess "Resume generated successfully!") ]
          | Ok [] => [ EvUI (StError "Failed to generate PDF. Please try again.") ]
          | Raise e =>
              [ EvUI (StError ("PDF generation failed: " +:+ exn_str e));
                EvUI (StError "Failed to generate PDF. Please try again.") ]
          end,
     Ok tt).
Proof.
  apply (render_outcomes broken_world sample_form_config sample_session sample_resume
           "j@x.com");
    [vm_compute; reflexivity | vm_compute; reflexivity
    | discriminate | discriminate | discriminate].
Defined.

(** ** The spell check of the form and its cache *)

(** X20: the key under which the result for the i-th job description is
    cached gives back i when the handler of "apply" splits it at the
    underscores and reads the last piece as an integer; and the keys of
    different fields differ, so no result overwrites another. *)
Theorem cache_key_round_trip :
  (forall n : nat,
      Py.int (Py.last_piece (Py.split "_" (cache_key (ExperienceDescription n))))
      = Some (Z.of_nat n))
  /\ (forall t1 t2 : target, cache_key t1 = cache_key t2 -> t1 = t2).
Proof.
  split; [exact exp_key_index|].
  intros t1 t2 Heq.
  destruct t1 as [| |n], t2 as [| |k]; try reflexivity;
    try (exfalso; revert Heq; simpl; discriminate).
  apply (f_equal (fun k => Py.int (Py.last_piece (Py.split "_" k)))) in Heq.
  rewrite !exp_key_index in Heq. injection Heq as Heq. f_equal. lia.
Qed.

Lemma cache_key_round_trip_witness :
  Py.int (Py.last_piece (Py.split "_" "exp_desc_12")) = Some 12
  /\ ExperienceDescription 12 = ExperienceDescription 12.
Proof.
  destruct cache_key_round_trip as [Hread Hinj]. split.
  - exact (Hread 12%nat).
  - apply Hinj. reflexivity.
Defined.

Lemma truthy_not_empty (t : string) : Py.truthy t = true <-> t <> EmptyString.
Proof. destruct t; simpl; split; congruence. Qed.

Lemma form_check_spelling_total (w : world) (text : string) :
  exists r, result (AiResume.check_spelling w text) = Ok r.
Proof.
  unfold AiResume.check_spelling.
  destruct (negb (Py.truthy (Py.strip text))); [eexists; reflexivity|].
  match goal with
  | |- context [try_except ?m _] => destruct m as [l [a|e0]]
  end; simpl; eexists; reflexivity.
Qed.

Lemma check_into_ok (w : world) (s : AiResume.session_state) (t : target)
    (text : string) (acc : gmap string (string * list string)) :
  cache_ok w s acc ->
  source_text s t = Some text ->
  text <> EmptyString ->
  exists acc',
    result (AiResume.check_into w (cache_key t) text acc) = Ok acc'
    /\ cache_ok w s acc'.
Proof.
  intros Hacc Hsrc Htext. unfold AiResume.check_into.
  destruct (form_check_spelling_total w text) as [r Hr].
  rewrite (result_bind _ _ r Hr). simpl.
  destruct (snd r) as [|x xs] eqn:Hsnd.
  - exists acc. split; [reflexivity|exact Hacc].
  - exists (<[cache_key t := r]> acc). split; [reflexivity|].
    intros key v. rewrite lookup_insert. case_decide as Hk.
    + intros [= <-]. subst key. exists t, text.
      repeat split; auto. rewrite Hsnd. discriminate.
    + apply Hacc.
Qed.

Lemma check_field_ok (w : world) (s : AiResume.session_state) (t : target)
    (field : string) (acc : gmap string (string * list string)) :
  (forall text, AiResume.fields s !! field = Some text -> source_text s t = Some text) ->
  cache_ok w s acc ->
  exists acc',
    result (AiResume.check_field w s field (cache_key t) acc) = Ok acc'
    /\ cache_ok w s acc'.
Proof.
  intros Hsrc Hacc. unfold AiResume.check_field.
  destruct (AiResume.fields s !! field) as [text|]; [|exists acc; auto].
  destruct (Py.truthy text) eqn:Ht; [|exists acc; auto].
  apply check_into_ok; auto. apply truthy_not_empty, Ht.
Qed.

Lemma check_descriptions_ok (w : world) (s : AiResume.session_state)
    (es : list AiResume.Exp.entry) :
  forall (i0 : nat) (acc : gmap string (string * list string)),
    (forall k e, es !! k = Some e ->
                 AiResume.experience_entries s !! (i0 + k)%nat = Some e) ->
    cache_ok w s acc ->
    exists acc',
      result (AiResume.check_descriptions w i0 es acc) = Ok acc'
      /\ cache_ok w s acc'.
Proof.
  induction es as [|exp es IH]; intros i0 acc Hes Hacc; [exists acc; auto|].
  cbn [AiResume.check_descriptions].
  assert (Hexp : AiResume.experience_entries s !! i0 = Some exp).
  { specialize (Hes 0%nat exp eq_refl). rewrite Nat.add_0_r in Hes. exact Hes. }
  assert (Hstep : exists acc1,
             result (if Py.truthy (AiResume.Exp.description exp)
                     then AiResume.check_into w
                            ("exp_desc_" +:+ Py.str_of_int (Z.of_nat i0))
                            (AiResume.Exp.description exp) acc
                     else ret acc) = Ok acc1
             /\ cache_ok w s acc1).
  { destruct (Py.truthy (AiResume.Exp.description exp)) eqn:Ht; [|exists acc; auto].
    apply (check_into_ok w s (ExperienceDescription i0)); auto.
    - simpl. rewrite Hexp. reflexivity.
    - apply truthy_not_empty, Ht. }
  destruct Hstep as (acc1 & Hr1 & Hacc1).
  rewrite (result_bind _ _ acc1 Hr1).
  apply IH; [|exact Hacc1].
  intros k e Hk. replace (S i0 + k)%nat with (i0 + S k)%nat by lia.
  apply Hes. exact Hk.
Qed.

(** The keys of different fields differ. *)
Lemma cache_key_inj (t1 t2 : target) : cache_key t1 = cache_key t2 -> t1 = t2.
Proof.
  intros Heq.
  destruct t1 as [| |n], t2 as [| |k]; try reflexivity;
    try (exfalso; revert Heq; simpl; discriminate).
  apply (f_equal (fun k => Py.int (Py.last_piece (Py.split "_" k)))) in Heq.
  rewrite !exp_key_index in Heq. injection Heq as Heq. f_equal. lia.
Qed.

(** Checking one field keeps the results exact: when [acc] holds the sound
    results of the keys checked so far and no other, it does so after the
    check, with the key of the field among the keys checked. *)
Lemma check_target_exact (w : world) (s : AiResume.session_state) (t : target)
    (done : string -> Prop) (acc : gmap string (string * list string)) :
  (forall key v, acc !! key = Some v <-> done key /\ entry_ok w s key v) ->
  exists acc',
    result (match source_text s t with
            | Some text =>
                if Py.truthy text
                then AiResume.check_into w (cache_key t) text acc
                else ret acc
            | None => ret acc
            end) = Ok acc'
    /\ forall key v,
         acc' !! key = Some v
         <-> (done key \/ key = cache_key t) /\ entry_ok w s key v.
Proof.
  intros Hacc.
  assert (Hskip : (forall v, ~ entry_ok w s (cache_key t) v) ->
            forall key v,
              acc !! key = Some v
              <-> (done key \/ key = cache_key t) /\ entry_ok w s key v).
  { intros Hno key v. rewrite Hacc. split.
    - intros [Hd He]. auto.
    - intros [[Hd | ->] He]; [auto | destruct (Hno v He)]. }
  destruct (source_text s t) as [text|] eqn:Hsrc.
  2:{ exists acc. split; [reflexivity|]. apply Hskip.
      intros v (t0 & text0 & Hk & Hsrc0 & _).
      apply cache_key_inj in Hk. subst t0. congruence. }
  destruct (Py.truthy text) eqn:Ht.
  2:{ exists acc. split; [reflexivity|]. apply Hskip.
      intros v (t0 & text0 & Hk & Hsrc0 & Hne & _).
      apply cache_key_inj in Hk. subst t0.
      rewrite Hsrc in Hsrc0. injection Hsrc0 as <-.
      apply truthy_not_empty in Hne. congruence. }
  unfold AiResume.check_into.
  destruct (form_check_spelling_total w text) as [r Hr].
  rewrite (result_bind _ _ r Hr). simpl.
  destruct (snd r) as [|x xs] eqn:Hsnd.
  - exists acc. split; [reflexivity|]. apply Hskip.
    intros v (t0 & text0 & Hk & Hsrc0 & Hne & Hres & Hv).
    apply cache_key_inj in Hk. subst t0.
    rewrite Hsrc in Hsrc0. injection Hsrc0 as <-.
    rewrite Hr in Hres. injection Hres as <-. auto.
  - exists (<[cache_key t := r]> acc). split; [reflexivity|].
    intros key v. rewrite lookup_insert. case_decide as Hk.
    + subst key. split.
      * intros [= <-]. split; [right; reflexivity|]. exists t, text.
        repeat split; auto; [apply truthy_not_empty, Ht|].
        rewrite Hsnd. discriminate.
      * intros [_ (t0 & text0 & Hk & Hsrc0 & Hne & Hres & Hv)].
        apply cache_key_inj in Hk. subst t0.
        rewrite Hsrc in Hsrc0. injection Hsrc0 as <-.
        rewrite Hr in Hres. injection Hres as <-. reflexivity.
    + rewrite Hacc. split.
      * intros [Hd He]. auto.
      * intros [[Hd | ->] He]; [auto | congruence].
Qed.

Lemma check_descriptions_exact (w : world) (s : AiResume.session_state)
    (es : list AiResume.Exp.entry) :
  forall (i0 : nat) (done : string -> Prop)
         (acc : gmap string (string * list string)),
    (forall k e, es !! k = Some e ->
                 AiResume.experience_entries s !! (i0 + k)%nat = Some e) ->
    (forall key v, acc !! key = Some v <-> done key /\ entry_ok w s key v) ->
    exists acc',
      result (AiResume.check_descriptions w i0 es acc) = Ok acc'
      /\ forall key v,
           acc' !! key = Some v
           <-> (done key
                \/ exists k, (k < length es)%nat
                             /\ key = cache_key (ExperienceDescription (i0 + k)))
               /\ entry_ok w s key v.
Proof.
  induction es as [|exp es IH]; intros i0 done acc Hes Hacc.
  { exists acc. split; [reflexivity|]. intros key v. rewrite Hacc. split.
    - intros [Hd He]. auto.
    - intros [[Hd | (k & Hk & _)] He]; [auto | simpl in Hk; lia]. }
  cbn [AiResume.check_descriptions].
  assert (Hexp : AiResume.experience_entries s !! i0 = Some exp).
  { specialize (Hes 0%nat exp eq_refl). rewrite Nat.add_0_r in Hes. exact Hes. }
  assert (Hstep : exists acc1,
             result (if Py.truthy (AiResume.Exp.description exp)
                     then AiResume.check_into w
                            ("exp_desc_" +:+ Py.str_of_int (Z.of_nat i0))
                            (AiResume.Exp.description exp) acc
                     else ret acc) = Ok acc1
             /\ forall key v,
                  acc1 !! key = Some v
                  <-> (done key \/ key = cache_key (ExperienceDescription i0))
                      /\ entry_ok w s key v).
  { pose proof (check_target_exact w s (ExperienceDescription i0) done acc Hacc)
      as Hone.
    unfold source_text in Hone. rewrite Hexp in Hone. exact Hone. }
  destruct Hstep as (acc1 & Hr1 & Hacc1).
  rewrite (result_bind _ _ acc1 Hr1).
  destruct (IH (S i0)
              (fun key => done key \/ key = cache_key (ExperienceDescription i0))
              acc1) as (acc' & Hr' & Hacc'); [|exact Hacc1|].
  { intros k e Hk. replace (S i0 + k)%nat with (i0 + S k)%nat by lia.
    apply Hes. exact Hk. }
  exists acc'. split; [exact Hr'|].
  intros key v. rewrite Hacc'. split.
  - intros [[[Hd | ->] | (k & Hk & ->)] He]; (split; [|exact He]).
    + left. exact Hd.
    + right. exists 0%nat. split; [simpl; lia|]. rewrite Nat.add_0_r. reflexivity.
    + right. exists (S k). split; [simpl; lia|].
      replace (i0 + S k)%nat with (S i0 + k)%nat by lia. reflexivity.
  - intros [[Hd | (k & Hk & ->)] He]; (split; [|exact He]).
    + left. left. exact Hd.
    + destruct k as [|k].
      * left. right. rewrite Nat.add_0_r. reflexivity.
      * right. exists k. split; [simpl in Hk; lia|].
        replace (i0 + S k)%nat with (S i0 + k)%nat by lia. reflexivity.
Qed.

(** What a spell check finds: either no field holds a misspelled word and
    the session is left as it was, or the cached results are replaced by
    the sound results, all of them and no other. *)
Lemma run_spell_check_exact (w : world) (s : AiResume.session_state) :
  exists s',
    result (AiResume.run_spell_check w s) = Ok s'
    /\ ((forall key v, ~ entry_ok w s key v) /\ s' = s
        \/ exists acc,
             s' = AiResume.set_spelling_errors acc s
             /\ acc <> ∅
             /\ forall key v, acc !! key = Some v <-> entry_ok w s key v).
Proof.
  unfold AiResume.run_spell_check.
  assert (H0 : forall key v,
             (∅ : gmap string (string * list string)) !! key = Some v
             <-> False /\ entry_ok w s key v).
  { intros key v. rewrite lookup_empty. split; [discriminate | tauto]. }
  destruct (check_target_exact w s Summary _ ∅ H0) as (acc1 & Hr1 & H1).
  destruct (check_target_exact w s Skills _ acc1 H1) as (acc2 & Hr2 & H2).
  destruct (check_descriptions_exact w s (AiResume.experience_entries s) 0 _ acc2
              (fun k e Hk => Hk) H2) as (acc3 & Hr3 & H3).
  change (result (AiResume.check_field w s "summary" "summary" ∅) = Ok acc1) in Hr1.
  change (result (AiResume.check_field w s "technical_skills" "skills" acc1) = Ok acc2)
    in Hr2.
  rewrite (result_bind _ _ acc1 Hr1), (result_bind _ _ acc2 Hr2),
    (result_bind _ _ acc3 Hr3).
  assert (Hall : forall key v, acc3 !! key = Some v <-> entry_ok w s key v).
  { intros key v. rewrite H3. split; [tauto|]. intros He. split; [|exact He].
    destruct He as ([| |i] & text & -> & Hsrc & _).
    - left. left. right. reflexivity.
    - left. right. reflexivity.
    - right. exists i. split; [|reflexivity].
      simpl in Hsrc. apply fmap_Some in Hsrc. destruct Hsrc as (e & He & _).
      apply lookup_lt_Some in He. exact He. }
  case_bool_decide as Hempty.
  - exists s. split; [reflexivity|]. left. split; [|reflexivity].
    intros key v He. apply Hall in He. rewrite Hempty, lookup_empty in He.
    discriminate.
  - eexists. split; [reflexivity|]. right. exists acc3. auto.
Qed.

(** What a spell check leaves behind. *)
Lemma run_spell_check_spec (w : world) (s : AiResume.session_state) :
  exists s',
    result (AiResume.run_spell_check w s) = Ok s'
    /\ (s' = s
        \/ exists acc, s' = AiResume.set_spelling_errors acc s
                       /\ acc <> ∅ /\ cache_ok w s acc).
Proof.
  unfold AiResume.run_spell_check.
  assert (H0 : cache_ok w s ∅) by (intros key v; rewrite lookup_empty; discriminate).
  destruct (check_field_ok w s Summary "summary" ∅) as (acc1 & Hr1 & H1);
    [auto | exact H0 |].
  destruct (check_field_ok w s Skills "technical_skills" acc1) as (acc2 & Hr2 & H2);
    [auto | exact H1 |].
  destruct (check_descriptions_ok w s (AiResume.experience_entries s) 0 acc2)
    as (acc3 & Hr3 & H3); [auto | exact H2 |].
  change (cache_key Summary) with "summary" in Hr1.
  change (cache_key Skills) with "skills" in Hr2.
  rewrite (result_bind _ _ acc1 Hr1), (result_bind _ _ acc2 Hr2),
    (result_bind _ _ acc3 Hr3).
  case_bool_decide as Hempty.
  - exists s. split; [reflexivity|left; reflexivity].
  - eexists. split; [reflexivity|]. right. exists acc3. auto.
Qed.

(** X21: the spell check of the form lets no exception out and touches
    nothing but the cached results: entries, the flag of the enhancement,
    text fields and generated text are as before.  When no checked field
    (the summary, the technical skills, a job description; the text not
    empty) has a misspelled word, the session is left exactly as it was,
    the results cached earlier included; when one has, the cached results
    are replaced by the results of [check_spelling] for the fields with a
    misspelled word, all of them and no other. *)
Theorem run_spell_check_frame (w : world) (s : AiResume.session_state) :
  exists s',
    result (AiResume.run_spell_check w s) = Ok s'
    /\ AiResume.education_entries s' = AiResume.education_entries s
    /\ AiResume.experience_entries s' = AiResume.experience_entries s
    /\ AiResume.ai_enhanced s' = AiResume.ai_enhanced s
    /\ AiResume.fields s' = AiResume.fields s
    /\ AiResume.generated_text s' = AiResume.generated_text s
    /\ ((forall key v, ~ entry_ok w s key v) -> s' = s)
    /\ ((exists key v, entry_ok w s key v) ->
        exists acc,
          AiResume.spelling_errors s' = Some acc
          /\ forall key v, acc !! key = Some v <-> entry_ok w s key v).
Proof.
  destruct (run_spell_check_exact w s)
    as (s' & Hr & [[Hno ->] | (acc & -> & Hne & Hall)]);
    eexists; (split; [exact Hr|]); repeat split; auto.
  - intros (key & v & He). destruct (Hno key v He).
  - intros Hno. destruct (map_choose acc Hne) as (key & v & Hk).
    apply Hall in Hk. destruct (Hno key v Hk).
  - intros _. exists acc. split; [reflexivity|exact Hall].
Qed.

Lemma run_spell_check_frame_witness :
  exists s' : AiResume.session_state,
    result (AiResume.run_spell_check (sample_world (Ok completion))
              (AiResume.run (sample_world (Ok completion)) sample_form_config
                 [ AiResume.EditExperience 0
                     (AiResume.Exp.set_description "teh cat sat" AiResume.Exp.empty) ]))
    = Ok s'
    /\ exists acc,
         AiResume.spelling_errors s' = Some acc
         /\ acc !! "exp_desc_0" = Some ("the cat sat", ["teh"]).
Proof.
  assert (He : entry_ok (sample_world (Ok completion))
                 (AiResume.run (sample_world (Ok completion)) sample_form_config
                    [ AiResume.EditExperience 0
                        (AiResume.Exp.set_description "teh cat sat"
                           AiResume.Exp.empty) ])
                 "exp_desc_0" ("the cat sat", ["teh"])).
  { exists (ExperienceDescription 0), "teh cat sat".
    split; [vm_compute; reflexivity|]. split; [vm_compute; reflexivity|].
    split; [discriminate|]. split; [vm_compute; reflexivity|discriminate]. }
  destruct (run_spell_check_frame (sample_world (Ok completion))
              (AiResume.run (sample_world (Ok completion)) sample_form_config
                 [ AiResume.EditExperience 0
                     (AiResume.Exp.set_description "teh cat sat" AiResume.Exp.empty) ]))
    as (s' & Hr & _ & _ & _ & _ & _ & _ & Hsome).
  exists s'. split; [exact Hr|].
  destruct Hsome as (acc & Hacc & Hall);
    [exists "exp_desc_0", ("the cat sat", ["teh"]); exact He|].
  exists acc. split; [exact Hacc|]. apply Hall. exact He.
Defined.

(** X22: every result the spell check caches is sound: it sits under the
    key of the summary, of the technical skills or of an existing job
    description, that field holds a text that is not empty, and the result
    is the one [check_spelling] gives for that text, with at least one
    misspelled word. *)
Theorem run_spell_check_cache_sound (w : world) (s s' : AiResume.session_state)
    (key : string) (v : string * list string) :
  AiResume.spelling_errors s = None ->
  result (AiResume.run_spell_check w s) = Ok s' ->
  cached s' key = Some v ->
  entry_ok w s' key v.
Proof.
  intros Hnone Hr Hc.
  destruct (run_spell_check_spec w s) as (s1 & Hr1 & Hcases).
  rewrite Hr in Hr1. injection Hr1 as <-.
  destruct Hcases as [-> | (acc & -> & _ & Hok)].
  - unfold cached in Hc. rewrite Hnone in Hc. discriminate.
  - unfold cached in Hc. simpl in Hc.
    destruct (Hok key v Hc) as (t & text & Hk & Hsrc & Hrest).
    exists t, text. split; [exact Hk|]. split; [|exact Hrest].
    destruct t; exact Hsrc.
Qed.

Lemma run_spell_check_cache_sound_witness :
  entry_ok (sample_world (Ok completion)) described_session "exp_desc_0"
    ("the cat sat", ["teh"]).
Proof.
  apply (run_spell_check_cache_sound (sample_world (Ok completion))
           (AiResume.run (sample_world (Ok completion)) sample_form_config
              [ AiResume.EditExperience 0
                  (AiResume.Exp.set_description "teh cat sat" AiResume.Exp.empty) ])
           described_session "exp_desc_0" ("the cat sat", ["teh"]));
    vm_compute; reflexivity.
Defined.

(** Applying the cached result for a field that holds a text: the handler
    succeeds, and the rerun leaves the session as it was before the click. *)
Lemma apply_corrections_runs (s : AiResume.session_state) (t : target)
    (corrected : string) (errors : list string) :
  cached s (cache_key t) = Some (corrected, errors) ->
  (exists text, source_text s t = Some text) ->
  AiResume.apply_corrections s (cache_key t)
  = ([EvUI (StSuccess "Corrections applied!"); EvRerun], Ok s).
Proof.
  unfold cached, AiResume.apply_corrections.
  destruct (AiResume.spelling_errors s) as [cache|] eqn:Hcache; [|discriminate].
  intros -> [text Hsrc].
  destruct t as [| |i].
  - change (String.eqb (cache_key Summary) "summary") with true. cbv iota.
    unfold mbind, M_bind, bind, ret, emit. cbn [app].
    rewrite assign_widgets_of by reflexivity. reflexivity.
  - change (String.eqb (cache_key Skills) "summary") with false.
    change (String.eqb (cache_key Skills) "skills") with true. cbv iota.
    unfold mbind, M_bind, bind, ret, emit. cbn [app].
    rewrite assign_widgets_of by reflexivity. reflexivity.
  - simpl in Hsrc.
    destruct (AiResume.experience_entries s !! i) as [e|] eqn:He; [|discriminate].
    pose proof (lookup_lt_Some _ _ _ He) as Hrange.
    change (String.eqb (cache_key (ExperienceDescription i)) "summary") with false.
    change (String.eqb (cache_key (ExperienceDescription i)) "skills") with false.
    change (Py.startswith (cache_key (ExperienceDescription i)) "exp_desc") with true.
    cbv iota. rewrite exp_key_index. unfold mbind, M_bind. cbn [lift_opt bind ret app].
    rewrite (index_in_range _ _ Hrange). unfold emit, bind, lift_opt, ret. cbn [app].
    rewrite assign_widgets_of; try reflexivity. simpl. apply length_alter.
Qed.

(** X23: spell check and "apply" fit together: on a session without cached
    results, the button of every result the spell check caches runs without
    exception: it shows the success message and restarts the script. The
    rerun assigns the fields from their widgets, and the session is then
    the one before the click, the cached result included. *)
Theorem spell_check_then_apply (w : world) (s s' : AiResume.session_state)
    (key corrected : string) (errors : list string) :
  AiResume.spelling_errors s = None ->
  result (AiResume.run_spell_check w s) = Ok s' ->
  cached s' key = Some (corrected, errors) ->
  exists t : target,
    key = cache_key t
    /\ AiResume.apply_corrections s' key
       = ([EvUI (StSuccess "Corrections applied!"); EvRerun], Ok s').
Proof.
  intros Hnone Hr Hc.
  destruct (run_spell_check_spec w s) as (s1 & Hr1 & Hcases).
  rewrite Hr in Hr1. injection Hr1 as <-.
  destruct Hcases as [-> | (acc & -> & _ & Hok)].
  - unfold cached in Hc. rewrite Hnone in Hc. discriminate.
  - assert (Hlook : acc !! key = Some (corrected, errors)) by exact Hc.
    destruct (Hok key _ Hlook) as (t & text & -> & Hsrc & _).
    exists t. split; [reflexivity|].
    apply (apply_corrections_runs _ t corrected errors Hc).
    exists text. destruct t; exact Hsrc.
Qed.

Lemma spell_check_then_apply_witness :
  exists t : target,
    "summary" = cache_key t
    /\ AiResume.apply_corrections checked_session "summary"
       = ([EvUI (StSuccess "Corrections applied!"); EvRerun], Ok checked_session).
Proof.
  apply (spell_check_then_apply (sample_world (Ok completion))
           (AiResume.run (sample_world (Ok completion)) sample_form_config
              [AiResume.Input "summary" "teh cat sat"])
           checked_session "summary" "the cat sat" ["teh"]);
    vm_compute; reflexivity.
Defined.

Lemma index_out_of_range (len i : nat) :
  (len <= i)%nat -> Py.index len (Z.of_nat i) = None.
Proof.
  intros H. unfold Py.index.
  destruct (Z.ltb_spec (Z.of_nat i) (Z.of_nat len)); [lia|].
  rewrite andb_false_r. destruct (Z.ltb_spec (Z.of_nat i) 0); [lia|]. reflexivity.
Qed.

(** X24: a cached result for a job description whose entry was removed in
    the meantime cannot be applied: the handler raises IndexError before it
    shows or changes anything, and the session stays as it is, the stale
    result included. *)
Theorem apply_corrections_stale_index (w : world) (cfg : AiResume.config)
    (s : AiResume.session_state) (i : nat) (v : string * list string) :
  cached s (cache_key (ExperienceDescription i)) = Some v ->
  (length (AiResume.experience_entries s) <= i)%nat ->
  AiResume.apply_corrections s (cache_key (ExperienceDescription i))
  = ([], Raise (PyError "IndexError" "list index out of range"))
  /\ AiResume.step w cfg s (AiResume.ApplyCorrections (cache_key (ExperienceDescription i)))
     = s.
Proof.
  intros Hc Hlen.
  assert (Happ : AiResume.apply_corrections s (cache_key (ExperienceDescription i))
                 = ([], Raise (PyError "IndexError" "list index out of range"))).
  { revert Hc. unfold cached, AiResume.apply_corrections.
    destruct (AiResume.spelling_errors s) as [cache|]; [|discriminate].
    intros ->. destruct v as [corrected errors].
    change (String.eqb (cache_key (ExperienceDescription i)) "summary") with false.
    change (String.eqb (cache_key (ExperienceDescription i)) "skills") with false.
    change (Py.startswith (cache_key (ExperienceDescription i)) "exp_desc") with true.
    cbv iota. rewrite exp_key_index. unfold mbind, M_bind. cbn [lift_opt bind ret app].
    rewrite (index_out_of_range _ _ Hlen). reflexivity. }
  split; [exact Happ|].
  unfold AiResume.step. cbn [AiResume.handle]. rewrite Happ. reflexivity.
Qed.

Lemma apply_corrections_stale_index_witness :
  AiResume.apply_corrections stale_session "exp_desc_1"
  = ([], Raise (PyError "IndexError" "list index out of range"))
  /\ AiResume.step (sample_world (Ok completion)) sample_form_config stale_session
       (AiResume.ApplyCorrections "exp_desc_1")
     = stale_session.
Proof.
  apply (apply_corrections_stale_index (sample_world (Ok completion)) sample_form_config
           stale_session 1 ("the cat sat", ["teh"])).
  - vm_compute. reflexivity.
  - vm_compute. lia.
Defined.

Lemma form_generate_text_total (w : world) (cfg : AiResume.config)
    (prompt : string) (m : option Z) (t : option float) :
  exists j : json, result (AiResume.generate_text w cfg prompt m t) = Ok j.
Proof. unfold AiResume.generate_text. run_cases; eexists; reflexivity. Qed.

(** X25: the "Generate Text" form lets no exception out and changes at most
    the generated text: with an empty prompt nothing is sent and the session
    stays as it is; otherwise the generated text is replaced only by a
    result of [generate_text] that is not empty, so a failed generation
    keeps the text generated before. *)
Theorem text_generator_submit_frame (w : world) (cfg : AiResume.config)
    (s : AiResume.session_state) (prompt : string) (m : Z) (t : float) :
  exists s',
    result (AiResume.text_generator_submit w cfg s prompt m t) = Ok s'
    /\ AiResume.education_entries s' = AiResume.education_entries s
    /\ AiResume.experience_entries s' = AiResume.experience_entries s
    /\ AiResume.fields s' = AiResume.fields s
    /\ AiResume.spelling_errors s' = AiResume.spelling_errors s
    /\ (s' = s
        \/ exists j, AiResume.generated_text s' = Some j
                     /\ AiResume.json_truthy j = true
                     /\ result (AiResume.generate_text w cfg prompt (Some m) (Some t)) = Ok j)
    /\ (prompt = EmptyString ->
        AiResume.text_generator_submit w cfg s prompt m t = ([], Ok s)).
Proof.
  unfold AiResume.text_generator_submit.
  destruct prompt as [|c prompt]; simpl Py.truthy; cbv iota.
  - exists s. repeat split; auto.
  - destruct (form_generate_text_total w cfg (String c prompt) (Some m) (Some t))
      as [j Hj].
    rewrite (result_bind _ _ j Hj). simpl.
    destruct (AiResume.json_truthy j) eqn:Htruthy.
    + eexists. split; [reflexivity|]. repeat split; try reflexivity.
      * right. exists j. auto.
      * discriminate.
    + exists s. repeat split; auto. discriminate.
Qed.

Lemma apply_corrections_cache (s s' : AiResume.session_state) (field : string) :
  result (AiResume.apply_corrections s field) = Ok s' ->
  AiResume.spelling_errors s' = AiResume.spelling_errors s.
Proof.
  unfold AiResume.apply_corrections.
  destruct (AiResume.spelling_errors s) as [cache|] eqn:Hcache;
    [|intros [= <-]; exact Hcache].
  revert Hcache. run_cases; intros Hcache [= <-]; exact Hcache.
Qed.

Lemma text_generator_submit_cache (w : world) (cfg : AiResume.config)
    (s s' : AiResume.session_state) (prompt : string) (m : Z) (t : float) :
  result (AiResume.text_generator_submit w cfg s prompt m t) = Ok s' ->
  AiResume.spelling_errors s' = AiResume.spelling_errors s.
Proof.
  unfold AiResume.text_generator_submit.
  destruct (Py.truthy prompt); [|intros [= <-]; reflexivity].
  intros H. apply result_bind_inv in H as (g & _ & H).
  destruct (AiResume.json_truthy g); inversion H; subst; reflexivity.
Qed.

Lemma step_keeps_cache_shape (w : world) (cfg : AiResume.config)
    (s : AiResume.session_state) (a : AiResume.action) :
  cache_shape s -> cache_shape (AiResume.step w cfg s a).
Proof.
  intros Hs. unfold AiResume.step.
  destruct (result (AiResume.handle w cfg s a)) as [s'|e] eqn:Hh; [|exact Hs].
  assert (Hsame : AiResume.spelling_errors s' = AiResume.spelling_errors s ->
                  cache_shape s').
  { intros Heq key v. unfold cached. rewrite Heq. apply Hs. }
  destruct a; simpl in Hh;
    try (injection Hh as <-; apply Hsame;
         try reflexivity;
         try (destruct (bool_decide _); reflexivity);
         try (unfold AiResume.remove_education; destruct (_ <? _)%nat; reflexivity);
         try (unfold AiResume.remove_experience; destruct (_ <? _)%nat; reflexivity)).
  - destruct (run_spell_check_spec w s) as (s1 & Hr1 & Hcases).
    rewrite Hh in Hr1. injection Hr1 as <-.
    destruct Hcases as [-> | (acc & -> & _ & Hok)]; [exact Hs|].
    intros key v Hc. destruct (Hok key v Hc) as (t & text & -> & _ & _ & _ & Hne).
    split; [exact Hne|]. exists t. reflexivity.
  - apply Hsame, (text_generator_submit_cache w cfg s s' _ _ _ Hh).
  - apply Hsame, (apply_corrections_cache s s' field Hh).
  - apply result_bind_inv in Hh as (u & _ & Hh). injection Hh as <-. exact Hs.
Qed.

(** X26: in every state the session reaches, the corrections panel has
    only sound buttons to show: each cached result sits under the key of
    the summary, the skills or a job description, and lists at least one
    misspelled word. *)
Theorem session_cache_shape (w : world) (cfg : AiResume.config)
    (acts : list AiResume.action) (key : string) (v : string * list string) :
  cached (AiResume.run w cfg acts) key = Some v ->
  snd v <> [] /\ exists t : target, key = cache_key t.
Proof.
  revert key v. change (cache_shape (AiResume.run w cfg acts)).
  unfold AiResume.run.
  assert (Hinit : cache_shape AiResume.initial) by (intros key v; discriminate).
  revert Hinit. generalize AiResume.initial.
  induction acts as [|a acts IH]; intros s Hs; simpl; [exact Hs|].
  apply IH, step_keeps_cache_shape, Hs.
Qed.

Lemma session_cache_shape_witness :
  snd ("the cat sat", ["teh"]) <> [] /\ exists t : target, "exp_desc_1" = cache_key t.
Proof.
  apply (session_cache_shape (sample_world (Ok completion)) sample_form_config
           [ AiResume.AddExperience;
             AiResume.EditExperience 1
               (AiResume.Exp.set_description "teh cat sat" AiResume.Exp.empty);
             AiResume.RunSpellCheck;
             AiResume.RemoveExperience ]
           "exp_desc_1" ("the cat sat", ["teh"])).
  vm_compute. reflexivity.
Defined.

(** ** Configuration *)

(** X27: read from one environment, the two programs agree on the
    credential, the ceiling and the timeout; the ceiling is 500 and the
    timeout 30 when the environment does not set them. *)
Theorem configurations_agree (env : gmap string string) (scfg : Services.config)
    (fcfg : AiResume.config) :
  Services.load_config env = Ok scfg ->
  AiResume.load_config env = Ok fcfg ->
  Services.HF_API_KEY scfg = AiResume.HF_API_KEY fcfg
  /\ Services.MAX_TEXT_LENGTH scfg = AiResume.MAX_TEXT_LENGTH fcfg
  /\ Services.API_TIMEOUT scfg = AiResume.API_TIMEOUT fcfg
  /\ (env !! "MAX_TEXT_LENGTH" = None -> Services.MAX_TEXT_LENGTH scfg = 500)
  /\ (env !! "API_TIMEOUT" = None -> Services.API_TIMEOUT scfg = 30).
Proof.
  unfold Services.load_config, AiResume.load_config, getenv_int.
  destruct (env !! "PDF_FONT_SIZE") as [fs|]; [destruct (Py.int fs)|];
    destruct (env !! "MAX_TEXT_LENGTH") as [mx|]; try destruct (Py.int mx);
    destruct (env !! "API_TIMEOUT") as [tm|]; try destruct (Py.int tm);
    try discriminate;
    intros [= <-] [= <-]; simpl; repeat split; try reflexivity; discriminate.
Qed.

Lemma configurations_agree_witness :
  Services.HF_API_KEY sample_config = AiResume.HF_API_KEY sample_form_config
  /\ Services.MAX_TEXT_LENGTH sample_config = AiResume.MAX_TEXT_LENGTH sample_form_config
  /\ Services.API_TIMEOUT sample_config = AiResume.API_TIMEOUT sample_form_config
  /\ (credential_only !! "MAX_TEXT_LENGTH" = None ->
      Services.MAX_TEXT_LENGTH sample_config = 500)
  /\ (credential_only !! "API_TIMEOUT" = None -> Services.API_TIMEOUT sample_config = 30).
Proof.
  apply (configurations_agree credential_only sample_config sample_form_config);
    reflexivity.
Defined.
